(** * The wishlist contribution ledger of [main.jsx]

    A shallow embedding of the handlers of the [App] component that write
    to Firestore: [handleSubmitItem] (add / edit an item), [handleContribute]
    (sign up for an item, or contribute cash to it) and [handleDeleteItem],
    together with the part of the render function that decides whether the
    contribution form can be submitted at all.

    - A JavaScript number is an IEEE 754 binary64 value: Rocq's primitive
      [float], with the same [+], [<=] and NaN.
    - A Firestore document of the [wishlistItems] collection is a record of
      the fields the handlers write; a field the code may find missing is an
      [option].  The collection is a finite map from document ids.
    - The [contributions] subcollection of an item is the list of the
      records appended to it, oldest first.
    - [updateDoc] and [runTransaction] are modelled on a store that one
      handler call owns: a transaction commits all its writes or none.
      Retries under contention are outside this sequential model. *)

From Stdlib Require Import Floats ZArith Ascii.
From stdpp Require Import gmap strings list.

(** ** JavaScript values *)

Module JS.

(** [isNaN(x)] *)
Definition isNaN (x : float) : bool := PrimFloat.is_nan x.

(** Truthiness of a number: everything but [0], [-0] and [NaN]. *)
Definition truthy (x : float) : bool :=
  negb (PrimFloat.is_nan x || (x =? 0)%float).

(** [x || 0] for a numeric field [x] that may be [undefined]. *)
Definition orZero (x : option float) : float :=
  match x with
  | Some v => if truthy v then v else 0%float
  | None => 0%float
  end.

(** [a || b] on strings: the empty string is falsy. *)
Definition orStr (a b : string) : string :=
  if String.eqb a "" then b else a.

(** [s || b] where [s] is a string or [null]. *)
Definition orNull (a : option string) (b : string) : string :=
  match a with
  | Some s => orStr s b
  | None => b
  end.

(** [a >= b] *)
Definition ge (a b : float) : bool := (b <=? a)%float.

(** [a <= b] *)
Definition le (a b : float) : bool := (a <=? b)%float.

End JS.

(** ** Documents *)

(** Milliseconds since the epoch: the value of [Date.now()] and of
    [new Date()]. *)
Definition time := Z.

Module Item.

(** A document of [wishlistItems].  [status] and [contributionType] are
    strings in the source and stay strings here. *)
Record t := mk {
  itemName : string;
  category : string;
  expectedCost : float;
  contributionType : string;
  dateNeeded : string;
  isPartialAllowed : bool;
  status : string;
  currentContributions : option float;
  createdAt : time;
  createdBy : option string;
  creatorName : option string;
  updatedAt : option time;
  contributorId : option string;
  contributorName : option string
}.

(** One [key: value] pair of the object literal given to [updateDoc] or
    to [transaction.update]. *)
Inductive field :=
| ItemName (v : string)
| Category (v : string)
| ExpectedCost (v : float)
| ContributionType (v : string)
| DateNeeded (v : string)
| IsPartialAllowed (v : bool)
| Status (v : string)
| CurrentContributions (v : float)
| UpdatedAt (v : time)
| ContributorId (v : string)
| ContributorName (v : string).

(** Writing one field leaves the thirteen others as they are. *)
Definition set (f : field) (d : t) : t :=
  match f with
  | ItemName v =>
      mk v (category d) (expectedCost d) (contributionType d) (dateNeeded d)
         (isPartialAllowed d) (status d) (currentContributions d)
         (createdAt d) (createdBy d) (creatorName d) (updatedAt d)
         (contributorId d) (contributorName d)
  | Category v =>
      mk (itemName d) v (expectedCost d) (contributionType d) (dateNeeded d)
         (isPartialAllowed d) (status d) (currentContributions d)
         (createdAt d) (createdBy d) (creatorName d) (updatedAt d)
         (contributorId d) (contributorName d)
  | ExpectedCost v =>
      mk (itemName d) (category d) v (contributionType d) (dateNeeded d)
         (isPartialAllowed d) (status d) (currentContributions d)
         (createdAt d) (createdBy d) (creatorName d) (updatedAt d)
         (contributorId d) (contributorName d)
  | ContributionType v =>
      mk (itemName d) (category d) (expectedCost d) v (dateNeeded d)
         (isPartialAllowed d) (status d) (currentContributions d)
         (createdAt d) (createdBy d) (creatorName d) (updatedAt d)
         (contributorId d) (contributorName d)
  | DateNeeded v =>
      mk (itemName d) (category d) (expectedCost d) (contributionType d) v
         (isPartialAllowed d) (status d) (currentContributions d)
         (createdAt d) (createdBy d) (creatorName d) (updatedAt d)
         (contributorId d) (contributorName d)
  | IsPartialAllowed v =>
      mk (itemName d) (category d) (expectedCost d) (contributionType d)
         (dateNeeded d) v (status d) (currentContributions d)
         (createdAt d) (createdBy d) (creatorName d) (updatedAt d)
         (contributorId d) (contributorName d)
  | Status v =>
      mk (itemName d) (category d) (expectedCost d) (contributionType d)
         (dateNeeded d) (isPartialAllowed d) v (currentContributions d)
         (createdAt d) (createdBy d) (creatorName d) (updatedAt d)
         (contributorId d) (contributorName d)
  | CurrentContributions v =>
      mk (itemName d) (category d) (expectedCost d) (contributionType d)
         (dateNeeded d) (isPartialAllowed d) (status d) (Some v)
         (createdAt d) (createdBy d) (creatorName d) (updatedAt d)
         (contributorId d) (contributorName d)
  | UpdatedAt v =>
      mk (itemName d) (category d) (expectedCost d) (contributionType d)
         (dateNeeded d) (isPartialAllowed d) (status d)
         (currentContributions d) (createdAt d) (createdBy d)
         (creatorName d) (Some v) (contributorId d) (contributorName d)
  | ContributorId v =>
      mk (itemName d) (category d) (expectedCost d) (contributionType d)
         (dateNeeded d) (isPartialAllowed d) (status d)
         (currentContributions d) (createdAt d) (createdBy d)
         (creatorName d) (updatedAt d) (Some v) (contributorName d)
  | ContributorName v =>
      mk (itemName d) (category d) (expectedCost d) (contributionType d)
         (dateNeeded d) (isPartialAllowed d) (status d)
         (currentContributions d) (createdAt d) (createdBy d)
         (creatorName d) (updatedAt d) (contributorId d) (Some v)
  end.

(** The object literal as a whole: its pairs are written left to right. *)
Definition patch (fs : list field) (d : t) : t :=
  fold_left (fun acc f => set f acc) fs d.

End Item.

Module Contribution.

(** A document of an item's [contributions] subcollection
    (lines 379-384). *)
Record t := mk {
  userId : string;
  amount : float;
  timestamp : time;
  contributorName : string
}.

End Contribution.

(** ** The Firestore store *)

Module Firestore.

Record store := mkStore {
  wishlistItems : gmap string Item.t;
  contributions : gmap string (list Contribution.t)
}.

(** The records of one item's subcollection; none when nothing was ever
    written under it. *)
Definition contributionsOf (db : store) (id : string) : list Contribution.t :=
  default [] (contributions db !! id).

(** [addDoc(wishlistCollection, data)] under the id Firestore picked. *)
Definition addDoc (db : store) (id : string) (data : Item.t) : store :=
  mkStore (<[id := data]> (wishlistItems db)) (contributions db).

(** [updateDoc(ref, fields)]: merges the fields into the document; it is
    rejected, and nothing is written, when the document does not exist. *)
Definition updateDoc (db : store) (id : string) (fs : list Item.field)
  : option store :=
  match wishlistItems db !! id with
  | Some d =>
      Some (mkStore (<[id := Item.patch fs d]> (wishlistItems db))
              (contributions db))
  | None => None
  end.

(** [deleteDoc(ref)]: removes the item document.  The subcollection under
    it is not touched. *)
Definition deleteDoc (db : store) (id : string) : store :=
  mkStore (delete id (wishlistItems db)) (contributions db).

(** A write buffered by a transaction. *)
Inductive write :=
| Update (id : string) (fs : list Item.field)
| SetContribution (itemId : string) (c : Contribution.t).

Definition applyWrite (db : store) (w : write) : option store :=
  match w with
  | Update id fs => updateDoc db id fs
  | SetContribution id c =>
      Some (mkStore (wishlistItems db)
              (<[id := contributionsOf db id ++ [c]]> (contributions db)))
  end.

(** Commit: every buffered write in order, or none of them. *)
Fixpoint commit (db : store) (ws : list write) : option store :=
  match ws with
  | [] => Some db
  | w :: ws' =>
      match applyWrite db w with
      | Some db' => commit db' ws'
      | None => None
      end
  end.

(** The body of a transaction: it reads the store it was started on,
    buffers writes, and may throw. *)
Definition tx (A : Type) : Type :=
  store -> list write -> string + (A * list write).

Definition ret {A} (a : A) : tx A := fun _ ws => inr (a, ws).

Definition bind {A B} (m : tx A) (k : A -> tx B) : tx B :=
  fun db ws =>
    match m db ws with
    | inl e => inl e
    | inr (a, ws') => k a db ws'
    end.

Definition throw {A} (e : string) : tx A := fun _ _ => inl e.

(** [transaction.get(itemRef)]; [None] is a snapshot whose [exists()] is
    false. *)
Definition get (id : string) : tx (option Item.t) :=
  fun db ws => inr (wishlistItems db !! id, ws).

(** [transaction.update(itemRef, fields)] *)
Definition update (id : string) (fs : list Item.field) : tx unit :=
  fun _ ws => inr (tt, ws ++ [Update id fs]).

(** [transaction.set(doc(collection(itemRef, 'contributions')), c)] *)
Definition setContribution (id : string) (c : Contribution.t) : tx unit :=
  fun _ ws => inr (tt, ws ++ [SetContribution id c]).

(** [runTransaction(db, body)]: the new store, or the error that aborted
    the transaction with the store as it was. *)
Definition runTransaction (db : store) (body : tx unit) : string + store :=
  match body db [] with
  | inl e => inl e
  | inr (_, ws) =>
      match commit db ws with
      | Some db' => inr db'
      | None => inl "NOT_FOUND"
      end
  end.

End Firestore.

Notation "'await' x '<-' m 'in' k" := (Firestore.bind m (fun x => k))
  (at level 10, x name, m at level 100, k at level 200, only parsing).
Notation "'exec' m 'in' k" := (Firestore.bind m (fun _ => k))
  (at level 10, m at level 100, k at level 200, only parsing).

(** ** The component state *)

Module User.

(** The fields of the Firebase user the handlers read; [displayName] is
    [null] for an anonymous user. *)
Record t := mk {
  uid : string;
  displayName : option string;
  isAnonymous : bool
}.

End User.

(** The [useState] variables the handlers read.  [currentEditingItem] is the
    copy of an item (its id and its fields) taken when its card was clicked
    (line 458); the store may have moved on since. *)
Record state := mkState {
  user : option User.t;
  currentEditingItem : option (string * Item.t);
  isEditing : bool;
  contributionAmount : string;
  contributorName : string;
  itemName : string;
  itemCategory : string;
  itemCost : string;
  contributionType : string;
  itemDate : string;
  partialContributionAllowed : bool
}.

(** What the caller sees of a handler call: nothing, the message given to
    [showAlert], or an exception no [catch] took. *)
Inductive outcome :=
| Silent
| Alert (message : string)
| Uncaught (error : string).

(** [const isAdmin = user?.uid === 'your-admin-uid'] (line 113) *)
Definition isAdmin (u : option User.t) : bool :=
  match u with
  | Some u => String.eqb (User.uid u) "your-admin-uid"
  | None => false
  end.

(** [user.displayName || contributorName || 'Anonymous'] (line 334) *)
Definition nameToUse (u : User.t) (ui : state) : string :=
  JS.orStr (JS.orNull (User.displayName u) (contributorName ui)) "Anonymous".

(** ASCII digits. *)
Definition isDigit (c : Ascii.ascii) : bool :=
  (48 <=? Ascii.nat_of_ascii c)%nat && (Ascii.nat_of_ascii c <=? 57)%nat.

Definition startsWithDigit (s : string) : bool :=
  match s with
  | String c _ => isDigit c
  | EmptyString => false
  end.

Fixpoint dropDigits (s : string) : string :=
  match s with
  | String c s' => if isDigit c then dropDigits s' else s
  | EmptyString => s
  end.

(** What may follow the digits of a number: nothing, or [e] or [E], an
    optional sign and one or more digits. *)
Definition validExponent (s : string) : bool :=
  match s with
  | EmptyString => true
  | String c s' =>
      if Ascii.eqb c "e"%char || Ascii.eqb c "E"%char then
        let digits :=
          match s' with
          | String c' s'' =>
              if Ascii.eqb c' "+"%char || Ascii.eqb c' "-"%char then s'' else s'
          | EmptyString => s'
          end in
        startsWithDigit digits && String.eqb (dropDigits digits) ""
      else false
  end.

(** The texts an [<input type="number">] keeps as its value (HTML's valid
    floating-point numbers): an optional [-], then digits, or digits, a dot
    and digits, or a dot and digits, then an optional exponent.  Any other
    text leaves the input empty. *)
Definition validFloatingPointNumber (s : string) : bool :=
  let s1 :=
    match s with
    | String c s' => if Ascii.eqb c "-"%char then s' else s
    | EmptyString => s
    end in
  let fraction (t : string) : bool :=
    match t with
    | String c t' =>
        Ascii.eqb c "."%char && startsWithDigit t' && validExponent (dropDigits t')
    | EmptyString => false
    end in
  if startsWithDigit s1 then
    validExponent (dropDigits s1) || fraction (dropDigits s1)
  else fraction s1.

(** The [required] inputs the contribution form renders have a value
    (lines 636-647): the name input, rendered when the user has no display
    name, and the number input for the amount, rendered for a cash item open
    to partial contributions.  The browser submits the form only then.
    Without a user the form cannot be rendered at all. *)
Definition requiredInputsFilled (ui : state) : bool :=
  match currentEditingItem ui, user ui with
  | Some (_, item), Some u =>
      (if String.eqb (JS.orNull (User.displayName u) "") ""
       then negb (String.eqb (contributorName ui) "") else true)
      && (if String.eqb (Item.contributionType item) "cash"
             && Item.isPartialAllowed item
          then validFloatingPointNumber (contributionAmount ui) else true)
  | _, _ => false
  end.

Section Handlers.

(** The global [parseFloat] of the JavaScript runtime. *)
Variable parseFloat : string -> float.

(** [handleSubmitItem] (lines 278-327).  [now] is the clock, [newId] the id
    Firestore gives to an added document. *)
Definition handleSubmitItem (ui : state) (now : time) (newId : string)
    (db : Firestore.store) : Firestore.store * outcome :=
  match user ui with
  | None => (db, Alert "You do not have permission to add or edit an item.")
  | Some u =>
      if negb (isAdmin (user ui)) then
        (db, Alert "You do not have permission to add or edit an item.")
      else
        let expectedCost := parseFloat (itemCost ui) in
        let isPartialAllowed :=
          String.eqb (contributionType ui) "cash"
          && partialContributionAllowed ui in
        if isEditing ui then
          match currentEditingItem ui with
          | Some (id, _) =>
              match
                Firestore.updateDoc db id
                  [ Item.ItemName (itemName ui);
                    Item.Category (itemCategory ui);
                    Item.ExpectedCost expectedCost;
                    Item.ContributionType (contributionType ui);
                    Item.DateNeeded (itemDate ui);
                    Item.IsPartialAllowed isPartialAllowed;
                    Item.UpdatedAt now ]
              with
              | Some db' => (db', Alert "Item updated successfully!")
              | None => (db, Alert "Failed to update item. Please try again.")
              end
          | None => (db, Alert "Failed to update item. Please try again.")
          end
        else
          (Firestore.addDoc db newId
             {| Item.itemName := itemName ui;
                Item.category := itemCategory ui;
                Item.expectedCost := expectedCost;
                Item.contributionType := contributionType ui;
                Item.dateNeeded := itemDate ui;
                Item.isPartialAllowed := isPartialAllowed;
                Item.status := "Pending";
                Item.currentContributions := Some 0%float;
                Item.createdAt := now;
                Item.createdBy := Some (User.uid u);
                Item.creatorName :=
                  Some (JS.orNull (User.displayName u) "Anonymous");
                Item.updatedAt := None;
                Item.contributorId := None;
                Item.contributorName := None |},
           Alert "Item added successfully!")
  end.

(** The transaction of [handleContribute] (lines 362-385). *)
Definition contributeTransaction (id : string) (u : User.t)
    (name : string) (amount : float) (now : time) : Firestore.tx unit :=
  await itemDoc <- Firestore.get id in
  match itemDoc with
  | None => Firestore.throw "Document does not exist!"
  | Some data =>
      let currentContributions := JS.orZero (Item.currentContributions data) in
      let newContributions := (currentContributions + amount)%float in
      let newStatus :=
        if JS.ge newContributions (Item.expectedCost data)
        then "Completed" else "Signed Up" in
      exec Firestore.update id
             [ Item.CurrentContributions newContributions;
               Item.Status newStatus ] in
      Firestore.setContribution id
        {| Contribution.userId := User.uid u;
           Contribution.amount := amount;
           Contribution.timestamp := now;
           Contribution.contributorName := name |}
  end.

(** [handleContribute] (lines 329-393). *)
Definition handleContribute (ui : state) (now : time)
    (db : Firestore.store) : Firestore.store * outcome :=
  match currentEditingItem ui with
  | None => (db, Silent)
  | Some (id, item) =>
      match user ui with
      | None => (db, Uncaught "TypeError")
      | Some u =>
          let nameToUse := nameToUse u ui in
          if String.eqb nameToUse "" then
            (db, Alert "Please enter your name to contribute.")
          else if String.eqb (Item.contributionType item) "item" then
            match
              Firestore.updateDoc db id
                [ Item.Status "Signed Up";
                  Item.ContributorId (User.uid u);
                  Item.ContributorName nameToUse ]
            with
            | Some db' =>
                (db', Alert "You have successfully signed up for this item!")
            | None => (db, Alert "An error occurred. Please try again.")
            end
          else if String.eqb (Item.contributionType item) "cash"
                  && Item.isPartialAllowed item then
            let amount := parseFloat (contributionAmount ui) in
            if JS.isNaN amount || JS.le amount 0 then
              (db, Alert "Please enter a valid contribution amount.")
            else
              match
                Firestore.runTransaction db
                  (contributeTransaction id u nameToUse amount now)
              with
              | inr db' => (db', Alert "Thank you for your contribution!")
              | inl _ =>
                  (db, Alert "An error occurred during your contribution. Please try again.")
              end
          else (db, Silent)
      end
  end.

(** [handleDeleteItem] (lines 395-408). *)
Definition handleDeleteItem (ui : state) (db : Firestore.store)
    : Firestore.store * outcome :=
  match currentEditingItem ui with
  | Some (id, _) =>
      if isAdmin (user ui) then
        (Firestore.deleteDoc db id, Alert "Item successfully deleted!")
      else (db, Alert "You do not have permission to delete this item.")
  | None => (db, Alert "You do not have permission to delete this item.")
  end.

(** The details form renders its submit button only inside
    [currentEditingItem.status === 'Pending' && (...)] (lines 633-654):
    with any other status shown there is nothing to press. *)
Definition canSubmitContribution (ui : state) : bool :=
  match currentEditingItem ui with
  | Some (_, item) => String.eqb (Item.status item) "Pending"
  | None => false
  end.

(** A press of the form's submit button: [handleContribute] runs when the
    button is there and the required inputs are filled. *)
Definition submitContribution (ui : state) (now : time)
    (db : Firestore.store) : Firestore.store * outcome :=
  if canSubmitContribution ui && requiredInputsFilled ui
  then handleContribute ui now db
  else (db, Silent).

End Handlers.

(** ** Concrete data *)

(** The tolerance the specification compares totals with: 1e-6 of a
    currency unit, as the nearest binary64 value.  The handlers use no
    tolerance; it only serves to state the specification's bounds. *)
Definition epsilon : float := 0x1.0c6f7a0b5ed8dp-20%float.

(** The values of [parseFloat] on the texts typed in the examples below;
    the empty text parses to NaN.  No other text is used. *)
Definition parseFloatTable (s : string) : float :=
  if String.eqb s "10" then 10%float
  else if String.eqb s "550" then 550%float
  else if String.eqb s "551" then 551%float
  else if String.eqb s "700" then 700%float
  else if String.eqb s "549.999999523162841796875"
       then 549.999999523162841796875%float
  else if String.eqb s "800" then 800%float
  else if String.eqb s "1000" then 1000%float
  else if String.eqb s "Infinity" then infinity
  else nan.

(** The three [sampleItems] (lines 116-150), created at time [0]. *)
Definition alterTable : Item.t :=
  {| Item.itemName := "Alter Table";
     Item.category := "Furniture";
     Item.expectedCost := 1500%float;
     Item.contributionType := "item";
     Item.dateNeeded := "2025-12-25";
     Item.isPartialAllowed := false;
     Item.status := "Pending";
     Item.currentContributions := Some 0%float;
     Item.createdAt := 0%Z;
     Item.createdBy := None;
     Item.creatorName := None;
     Item.updatedAt := None;
     Item.contributorId := None;
     Item.contributorName := None |}.

Definition bemaTable : Item.t :=
  {| Item.itemName := "Bema Table";
     Item.category := "Furniture";
     Item.expectedCost := 800%float;
     Item.contributionType := "cash";
     Item.dateNeeded := "2026-01-15";
     Item.isPartialAllowed := true;
     Item.status := "Pending";
     Item.currentContributions := Some 250%float;
     Item.createdAt := 0%Z;
     Item.createdBy := None;
     Item.creatorName := None;
     Item.updatedAt := None;
     Item.contributorId := None;
     Item.contributorName := None |}.

Definition newFlagPole : Item.t :=
  {| Item.itemName := "New Flag Pole";
     Item.category := "Exterior";
     Item.expectedCost := 5000%float;
     Item.contributionType := "cash";
     Item.dateNeeded := "2025-11-01";
     Item.isPartialAllowed := true;
     Item.status := "Pending";
     Item.currentContributions := Some 0%float;
     Item.createdAt := 0%Z;
     Item.createdBy := None;
     Item.creatorName := None;
     Item.updatedAt := None;
     Item.contributorId := None;
     Item.contributorName := None |}.

(** The store once the samples are in, under the ids ["alter"], ["bema"]
    and ["flag"]. *)
Definition sampleStore : Firestore.store :=
  Firestore.mkStore
    (<["alter" := alterTable]> (<["bema" := bemaTable]>
       (<["flag" := newFlagPole]> ∅)))
    ∅.

(** A store holding the single item [d] under the id ["it"]. *)
Definition storeOf (d : Item.t) : Firestore.store :=
  Firestore.mkStore (<["it" := d]> ∅) ∅.

Definition mary : User.t :=
  {| User.uid := "mary"; User.displayName := Some "Mary"; User.isAnonymous := false |}.

Definition john : User.t :=
  {| User.uid := "john"; User.displayName := Some "John"; User.isAnonymous := false |}.

Definition admin : User.t :=
  {| User.uid := "your-admin-uid"; User.displayName := Some "Admin";
     User.isAnonymous := false |}.

(** [u] has the details modal open on the copy [item] of document [id] and
    has typed [text] as the amount. *)
Definition viewing (u : User.t) (id : string) (item : Item.t) (text : string)
    : state :=
  {| user := Some u;
     currentEditingItem := Some (id, item);
     isEditing := false;
     contributionAmount := text;
     contributorName := "";
     itemName := "";
     itemCategory := "";
     itemCost := "";
     contributionType := "item";
     itemDate := "";
     partialContributionAllowed := false |}.

(** The admin has the edit form open on the copy [item] of document [id],
    as [handleEditClick] fills it (lines 410-421), with the cost replaced by
    [cost]. *)
Definition editing (id : string) (item : Item.t) (cost : string) : state :=
  {| user := Some admin;
     currentEditingItem := Some (id, item);
     isEditing := true;
     contributionAmount := "";
     contributorName := "";
     itemName := Item.itemName item;
     itemCategory := Item.category item;
     itemCost := cost;
     contributionType := Item.contributionType item;
     itemDate := Item.dateNeeded item;
     partialContributionAllowed := Item.isPartialAllowed item |}.

(** A cash item closed to partial contributions, nothing given yet. *)
Definition fullAmountOnly : Item.t :=
  {| Item.itemName := "Lectern";
     Item.category := "Furniture";
     Item.expectedCost := 800%float;
     Item.contributionType := "cash";
     Item.dateNeeded := "2026-01-15";
     Item.isPartialAllowed := false;
     Item.status := "Pending";
     Item.currentContributions := Some 0%float;
     Item.createdAt := 0%Z;
     Item.createdBy := None;
     Item.creatorName := None;
     Item.updatedAt := None;
     Item.contributorId := None;
     Item.contributorName := None |}.

(** A cash item of target 1000 with 800 given: ['Signed Up']. *)
Definition partlyFunded : Item.t :=
  {| Item.itemName := "Carpet";
     Item.category := "Interior";
     Item.expectedCost := 1000%float;
     Item.contributionType := "cash";
     Item.dateNeeded := "2026-03-01";
     Item.isPartialAllowed := true;
     Item.status := "Signed Up";
     Item.currentContributions := Some 800%float;
     Item.createdAt := 0%Z;
     Item.createdBy := None;
     Item.creatorName := None;
     Item.updatedAt := None;
     Item.contributorId := None;
     Item.contributorName := None |}.

(** The sample item 'Bema Table' once 550 more were given: total 800,
    Completed. *)
Definition completedBema : Item.t :=
  Item.patch [Item.CurrentContributions 800; Item.Status "Completed"]
    bemaTable.

(** ** Operations and the vocabulary of the specification *)

(** A handler call that may write to the store. *)
Inductive operation :=
| SubmitItem (ui : state) (now : time) (newId : string)
| Contribute (ui : state) (now : time)
| DeleteItem (ui : state).

Definition step (parseFloat : string -> float) (op : operation)
    (db : Firestore.store) : Firestore.store :=
  match op with
  | SubmitItem ui now newId => fst (handleSubmitItem parseFloat ui now newId db)
  | Contribute ui now => fst (handleContribute parseFloat ui now db)
  | DeleteItem ui => fst (handleDeleteItem ui db)
  end.

Definition run (parseFloat : string -> float) (ops : list operation)
    (db : Firestore.store) : Firestore.store :=
  fold_left (fun acc op => step parseFloat op acc) ops db.

(** A Contribute which, if it is made on item [id], is made from a
    details modal that shows the item as Exclusive. *)
Definition contributesAsExclusive (id : string) (op : operation) : Prop :=
  match op with
  | Contribute ui _ =>
      forall item,
        currentEditingItem ui = Some (id, item) ->
        Item.contributionType item = "item"
  | _ => False
  end.

(** [totalContributed <= targetCost + epsilon], in the words of the
    specification. *)
Definition withinTarget (d : Item.t) : bool :=
  JS.le (JS.orZero (Item.currentContributions d))
        (Item.expectedCost d + epsilon)%float.

(** The specification's [claimed]: somebody signed up for the item. *)
Definition claimed (d : Item.t) : bool :=
  match Item.contributorId d with
  | Some _ => true
  | None => false
  end.

(** The specification's rule for [Fulfilled], in its words: Exclusive and
    claimed, or Cumulative and [totalContributed >= targetCost - epsilon]. *)
Definition specFulfilled (d : Item.t) : bool :=
  (String.eqb (Item.contributionType d) "item" && claimed d)
  || (String.eqb (Item.contributionType d) "cash"
      && JS.ge (JS.orZero (Item.currentContributions d))
               (Item.expectedCost d - epsilon)%float).

(** The record a cash contribution appends. *)
Definition recordOf (u : User.t) (ui : state) (amount : float) (now : time)
    : Contribution.t :=
  {| Contribution.userId := User.uid u;
     Contribution.amount := amount;
     Contribution.timestamp := now;
     Contribution.contributorName := nameToUse u ui |}.

(** The store a committed cash contribution leaves. *)
Definition contributed (db : Firestore.store) (id : string) (data : Item.t)
    (c : Contribution.t) : Firestore.store :=
  let total :=
    (JS.orZero (Item.currentContributions data) + Contribution.amount c)%float in
  Firestore.mkStore
    (<[id := Item.patch
               [ Item.CurrentContributions total;
                 Item.Status (if JS.ge total (Item.expectedCost data)
                              then "Completed" else "Signed Up") ]
               data]> (Firestore.wishlistItems db))
    (<[id := Firestore.contributionsOf db id ++ [c]]>
       (Firestore.contributions db)).

(** The store a sign-up leaves. *)
Definition signedUp (db : Firestore.store) (id : string) (data : Item.t)
    (u : User.t) (ui : state) : Firestore.store :=
  Firestore.mkStore
    (<[id := Item.patch
               [ Item.Status "Signed Up";
                 Item.ContributorId (User.uid u);
                 Item.ContributorName (nameToUse u ui) ] data]>
       (Firestore.wishlistItems db))
    (Firestore.contributions db).

(** The amount check of line 357. *)
Definition amountRefused (amount : float) : bool :=
  JS.isNaN amount || JS.le amount 0.

(** Every way [handleContribute] can end. *)
Inductive contributeCase (parseFloat : string -> float) (ui : state)
    (now : time) (db : Firestore.store)
  : Firestore.store * outcome -> Prop :=
| NothingOpen :
    currentEditingItem ui = None ->
    contributeCase parseFloat ui now db (db, Silent)
| NoUser id item :
    currentEditingItem ui = Some (id, item) ->
    user ui = None ->
    contributeCase parseFloat ui now db (db, Uncaught "TypeError")
| SignedUp id item u d :
    currentEditingItem ui = Some (id, item) ->
    user ui = Some u ->
    Item.contributionType item = "item" ->
    Firestore.wishlistItems db !! id = Some d ->
    contributeCase parseFloat ui now db
      (signedUp db id d u ui,
       Alert "You have successfully signed up for this item!")
| SignUpFailed id item u :
    currentEditingItem ui = Some (id, item) ->
    user ui = Some u ->
    Item.contributionType item = "item" ->
    Firestore.wishlistItems db !! id = None ->
    contributeCase parseFloat ui now db
      (db, Alert "An error occurred. Please try again.")
| AmountRefused id item u :
    currentEditingItem ui = Some (id, item) ->
    user ui = Some u ->
    Item.contributionType item = "cash" ->
    Item.isPartialAllowed item = true ->
    amountRefused (parseFloat (contributionAmount ui)) = true ->
    contributeCase parseFloat ui now db
      (db, Alert "Please enter a valid contribution amount.")
| Contributed id item u d :
    currentEditingItem ui = Some (id, item) ->
    user ui = Some u ->
    Item.contributionType item = "cash" ->
    Item.isPartialAllowed item = true ->
    amountRefused (parseFloat (contributionAmount ui)) = false ->
    Firestore.wishlistItems db !! id = Some d ->
    contributeCase parseFloat ui now db
      (contributed db id d
         (recordOf u ui (parseFloat (contributionAmount ui)) now),
       Alert "Thank you for your contribution!")
| TransactionFailed id item u :
    currentEditingItem ui = Some (id, item) ->
    user ui = Some u ->
    Item.contributionType item = "cash" ->
    Item.isPartialAllowed item = true ->
    amountRefused (parseFloat (contributionAmount ui)) = false ->
    Firestore.wishlistItems db !! id = None ->
    contributeCase parseFloat ui now db
      (db, Alert "An error occurred during your contribution. Please try again.")
| NoBranch id item u :
    currentEditingItem ui = Some (id, item) ->
    user ui = Some u ->
    String.eqb (Item.contributionType item) "item" = false ->
    String.eqb (Item.contributionType item) "cash"
    && Item.isPartialAllowed item = false ->
    contributeCase parseFloat ui now db (db, Silent).

(** ** The rest of the component *)

(** The three statuses the handlers write. *)
Definition knownStatus (s : string) : bool :=
  String.eqb s "Pending" || String.eqb s "Signed Up"
  || String.eqb s "Completed".

(** [statusOrder[s]] for [statusOrder = { 'Pending': 1, 'Signed Up': 2,
    'Completed': 3 }] (line 222); [None] stands for a lookup that gives no
    number. *)
Definition statusOrder (s : string) : option float :=
  if String.eqb s "Pending" then Some 1%float
  else if String.eqb s "Signed Up" then Some 2%float
  else if String.eqb s "Completed" then Some 3%float
  else None.

(** The comparator given to [sort] (lines 221-224):
    [statusOrder[a.status] - statusOrder[b.status]], NaN as soon as one
    side is not a number. *)
Definition compareByStatus (a b : string * Item.t) : float :=
  match statusOrder (Item.status a.2), statusOrder (Item.status b.2) with
  | Some x, Some y => (x - y)%float
  | _, _ => nan
  end.

(** How [Array.prototype.sort] reads its comparator: a NaN result counts
    as [+0]. *)
Definition sortCompare (a b : string * Item.t) : float :=
  let v := compareByStatus a b in
  if PrimFloat.is_nan v then 0%float else v.

(** [Array.prototype.sort] is stable: an element moves behind exactly the
    elements it compares greater than.  With a comparator that orders the
    elements consistently this insertion sort gives the one result the
    language allows. *)
Fixpoint insertByStatus (x : string * Item.t) (l : list (string * Item.t))
    : list (string * Item.t) :=
  match l with
  | [] => [x]
  | y :: l' =>
      if (0 <? sortCompare x y)%float then y :: insertByStatus x l'
      else x :: y :: l'
  end.

(** The callback of the [wishlistItems] listener (lines 214-227), from the
    documents of the snapshot to the list given to [setItems].  With a
    status other than the three the comparator gives NaN, the elements are
    not ordered consistently, and the result depends on the sorting
    algorithm of the engine: that case is left out ([None]). *)
Definition sortByStatus (fetchedItems : list (string * Item.t))
    : option (list (string * Item.t)) :=
  if forallb (fun p => knownStatus (Item.status p.2)) fetchedItems
  then Some (fold_right insertByStatus [] fetchedItems)
  else None.

(** [sampleItems] (lines 116-150). *)
Definition sampleItems : list Item.t := [alterTable; bemaTable; newFlagPole].

(** [checkAndAddSamples] with the guard around its call (lines 188-208):
    the store and the new value of [isDataLoaded].  [newIds] are the ids
    Firestore gives to the new documents, one for each sample. *)
Definition checkAndAddSamples (dbReady isAuthReady isDataLoaded : bool)
    (newIds : list string) (db : Firestore.store) : Firestore.store * bool :=
  if dbReady && isAuthReady && negb isDataLoaded then
    (if Nat.eqb (size (Firestore.wishlistItems db)) 0 then
       fold_left (fun acc p => Firestore.addDoc acc p.1 p.2)
         (zip newIds sampleItems) db
     else db,
     true)
  else (db, isDataLoaded).

(** The click on an item card (lines 457-462). *)
Definition openDetails (item : string * Item.t) (ui : state) : state :=
  {| user := user ui;
     currentEditingItem := Some item;
     isEditing := isEditing ui;
     contributionAmount := "";
     contributorName := "";
     itemName := itemName ui;
     itemCategory := itemCategory ui;
     itemCost := itemCost ui;
     contributionType := contributionType ui;
     itemDate := itemDate ui;
     partialContributionAllowed := partialContributionAllowed ui |}.

Section Form.

(** The text of a number, as the cost input shows the number
    [handleEditClick] puts into [itemCost]. *)
Variable numberToString : float -> string.

(** [handleEditClick] (lines 410-421). *)
Definition handleEditClick (item : string * Item.t) (ui : state) : state :=
  {| user := user ui;
     currentEditingItem := Some item;
     isEditing := true;
     contributionAmount := contributionAmount ui;
     contributorName := contributorName ui;
     itemName := Item.itemName item.2;
     itemCategory := Item.category item.2;
     itemCost := numberToString (Item.expectedCost item.2);
     contributionType := Item.contributionType item.2;
     itemDate := Item.dateNeeded item.2;
     partialContributionAllowed := Item.isPartialAllowed item.2 |}.

End Form.

(** The texts of the costs of the examples. *)
Definition numberToStringTable (x : float) : string :=
  if (x =? 800)%float then "800"
  else if (x =? 1000)%float then "1000"
  else "".

(** Every stored item has one of the three statuses. *)
Definition statusesKnown (db : Firestore.store) : Prop :=
  map_Forall (fun _ d => knownStatus (Item.status d) = true)
    (Firestore.wishlistItems db).

(** Only cash items are open to partial contributions. *)
Definition partialOnlyForCash (db : Firestore.store) : Prop :=
  map_Forall
    (fun _ d =>
       Item.isPartialAllowed d = true -> Item.contributionType d = "cash")
    (Firestore.wishlistItems db).

(** The fields an edit writes (lines 285-300). *)
Definition editFields (parseFloat : string -> float) (ui : state) (now : time)
    : list Item.field :=
  [ Item.ItemName (itemName ui);
    Item.Category (itemCategory ui);
    Item.ExpectedCost (parseFloat (itemCost ui));
    Item.ContributionType (contributionType ui);
    Item.DateNeeded (itemDate ui);
    Item.IsPartialAllowed
      (String.eqb (contributionType ui) "cash"
       && partialContributionAllowed ui);
    Item.UpdatedAt now ].

(** The document an add writes (lines 285-318). *)
Definition addedItem (parseFloat : string -> float) (ui : state) (now : time)
    (u : User.t) : Item.t :=
  {| Item.itemName := itemName ui;
     Item.category := itemCategory ui;
     Item.expectedCost := parseFloat (itemCost ui);
     Item.contributionType := contributionType ui;
     Item.dateNeeded := itemDate ui;
     Item.isPartialAllowed :=
       String.eqb (contributionType ui) "cash"
       && partialContributionAllowed ui;
     Item.status := "Pending";
     Item.currentContributions := Some 0%float;
     Item.createdAt := now;
     Item.createdBy := Some (User.uid u);
     Item.creatorName := Some (JS.orNull (User.displayName u) "Anonymous");
     Item.updatedAt := None;
     Item.contributorId := None;
     Item.contributorName := None |}.

(** Every way [handleSubmitItem] can end. *)
Inductive submitCase (parseFloat : string -> float) (ui : state) (now : time)
    (newId : string) (db : Firestore.store)
  : Firestore.store * outcome -> Prop :=
| SubmitDenied :
    isAdmin (user ui) = false ->
    submitCase parseFloat ui now newId db
      (db, Alert "You do not have permission to add or edit an item.")
| Edited id item d :
    isAdmin (user ui) = true ->
    isEditing ui = true ->
    currentEditingItem ui = Some (id, item) ->
    Firestore.wishlistItems db !! id = Some d ->
    submitCase parseFloat ui now newId db
      (Firestore.mkStore
         (<[id := Item.patch (editFields parseFloat ui now) d]>
            (Firestore.wishlistItems db))
         (Firestore.contributions db),
       Alert "Item updated successfully!")
| EditFailed :
    isAdmin (user ui) = true ->
    isEditing ui = true ->
    (currentEditingItem ui = None
     \/ exists id item,
          currentEditingItem ui = Some (id, item)
          /\ Firestore.wishlistItems db !! id = None) ->
    submitCase parseFloat ui now newId db
      (db, Alert "Failed to update item. Please try again.")
| Added u :
    user ui = Some u ->
    isAdmin (user ui) = true ->
    isEditing ui = false ->
    submitCase parseFloat ui now newId db
      (Firestore.addDoc db newId (addedItem parseFloat ui now u),
       Alert "Item added successfully!").

(** The admin has the add form filled for a cash item open to partial
    contributions, named [name] and costing [cost]. *)
Definition addingCash (name cost : string) : state :=
  {| user := Some admin;
     currentEditingItem := None;
     isEditing := false;
     contributionAmount := "";
     contributorName := "";
     itemName := name;
     itemCategory := "Interior";
     itemCost := cost;
     contributionType := "cash";
     itemDate := "2026-06-01";
     partialContributionAllowed := true |}.

(** ** Facts about numbers and strings *)

Lemma ltb_leb (a b : float) : (a <? b)%float = true -> (a <=? b)%float = true.
Proof.
  rewrite FloatAxioms.ltb_spec, FloatAxioms.leb_spec.
  unfold SFltb, SFleb.
  destruct (SFcompare (Prim2SF a) (Prim2SF b)) as [[ | | ]|];
    intros H; try discriminate H; reflexivity.
Qed.

(** X18: the amount check of [handleContribute], [isNaN(amount) || amount
    <= 0], lets through exactly the amounts strictly above zero; [Infinity]
    is one of them. *)
Lemma amount_check_positive (a : float) :
  amountRefused a = false <-> (0 <? a)%float = true.
Proof.
  unfold amountRefused, JS.isNaN, JS.le, PrimFloat.is_nan.
  rewrite FloatAxioms.eqb_spec, FloatAxioms.leb_spec, FloatAxioms.ltb_spec.
  unfold SFeqb, SFleb, SFltb.
  destruct (Prim2SF a) as [s | s | | s m e]; try destruct s; cbn;
    rewrite ?Z.compare_refl, ?Pos.compare_cont_refl; cbn; intuition congruence.
Qed.

Lemma nameToUse_nonempty (u : User.t) (ui : state) :
  String.eqb (nameToUse u ui) "" = false.
Proof.
  unfold nameToUse, JS.orStr at 1.
  destruct (String.eqb (JS.orNull _ _) "") eqn:E; [reflexivity | exact E].
Qed.

(** ** Facts about the store *)

Lemma updateDoc_Some (db db' : Firestore.store) (id : string)
    (fs : list Item.field) :
  Firestore.updateDoc db id fs = Some db' ->
  exists d,
    Firestore.wishlistItems db !! id = Some d
    /\ db' = Firestore.mkStore
               (<[id := Item.patch fs d]> (Firestore.wishlistItems db))
               (Firestore.contributions db).
Proof.
  unfold Firestore.updateDoc.
  destruct (Firestore.wishlistItems db !! id) as [d|]; [|discriminate].
  intros [= <-]. eauto.
Qed.

Lemma updateDoc_None (db : Firestore.store) (id : string)
    (fs : list Item.field) :
  Firestore.wishlistItems db !! id = None ->
  Firestore.updateDoc db id fs = None.
Proof. unfold Firestore.updateDoc. now intros ->. Qed.

Lemma updateDoc_found (db : Firestore.store) (id : string)
    (fs : list Item.field) (d : Item.t) :
  Firestore.wishlistItems db !! id = Some d ->
  Firestore.updateDoc db id fs
  = Some (Firestore.mkStore
            (<[id := Item.patch fs d]> (Firestore.wishlistItems db))
            (Firestore.contributions db)).
Proof. unfold Firestore.updateDoc. now intros ->. Qed.

(** ** The paths of [handleContribute] *)

Section Paths.

Variable parseFloat : string -> float.

Lemma transaction_commits db id u name amount now data :
  Firestore.wishlistItems db !! id = Some data ->
  Firestore.runTransaction db
    (contributeTransaction id u name amount now)
  = inr (contributed db id data
           (Contribution.mk (User.uid u) amount now name)).
Proof.
  intros Hd.
  unfold Firestore.runTransaction, contributeTransaction, Firestore.bind,
    Firestore.get.
  rewrite Hd. cbn [app Firestore.update Firestore.setContribution].
  cbn [Firestore.commit Firestore.applyWrite].
  rewrite (updateDoc_found _ _ _ _ Hd). reflexivity.
Qed.

Lemma transaction_aborts db id u name amount now :
  Firestore.wishlistItems db !! id = None ->
  Firestore.runTransaction db
    (contributeTransaction id u name amount now)
  = inl "Document does not exist!".
Proof.
  intros Hd.
  unfold Firestore.runTransaction, contributeTransaction, Firestore.bind,
    Firestore.get.
  now rewrite Hd.
Qed.

(** Sign-up path (lines 342-354). *)
Lemma handleContribute_item ui now db id item u :
  currentEditingItem ui = Some (id, item) ->
  user ui = Some u ->
  Item.contributionType item = "item" ->
  handleContribute parseFloat ui now db
  = match Firestore.wishlistItems db !! id with
    | Some d =>
        (signedUp db id d u ui,
         Alert "You have successfully signed up for this item!")
    | None => (db, Alert "An error occurred. Please try again.")
    end.
Proof.
  intros Hc Hu Ht. unfold handleContribute.
  rewrite Hc, Hu, nameToUse_nonempty, Ht.
  change (String.eqb "item" "item") with true. cbv iota.
  destruct (Firestore.wishlistItems db !! id) as [d|] eqn:Hd.
  - now rewrite (updateDoc_found _ _ _ _ Hd).
  - now rewrite (updateDoc_None _ _ _ Hd).
Qed.

(** Cash path, amount refused (lines 356-360). *)
Lemma handleContribute_refused ui now db id item u :
  currentEditingItem ui = Some (id, item) ->
  user ui = Some u ->
  Item.contributionType item = "cash" ->
  Item.isPartialAllowed item = true ->
  amountRefused (parseFloat (contributionAmount ui)) = true ->
  handleContribute parseFloat ui now db
  = (db, Alert "Please enter a valid contribution amount.").
Proof.
  intros Hc Hu Ht Hp Ha. unfold handleContribute.
  rewrite Hc, Hu, nameToUse_nonempty, Ht, Hp.
  change (String.eqb "cash" "item") with false.
  change (String.eqb "cash" "cash" && true) with true. cbv iota.
  unfold amountRefused in Ha. now rewrite Ha.
Qed.

(** Cash path, amount let through (lines 361-391). *)
Lemma handleContribute_cash ui now db id item u :
  currentEditingItem ui = Some (id, item) ->
  user ui = Some u ->
  Item.contributionType item = "cash" ->
  Item.isPartialAllowed item = true ->
  amountRefused (parseFloat (contributionAmount ui)) = false ->
  handleContribute parseFloat ui now db
  = match Firestore.wishlistItems db !! id with
    | Some data =>
        (contributed db id data
           (recordOf u ui (parseFloat (contributionAmount ui)) now),
         Alert "Thank you for your contribution!")
    | None =>
        (db, Alert "An error occurred during your contribution. Please try again.")
    end.
Proof.
  intros Hc Hu Ht Hp Ha. unfold handleContribute.
  rewrite Hc, Hu, nameToUse_nonempty, Ht, Hp.
  change (String.eqb "cash" "item") with false.
  change (String.eqb "cash" "cash" && true) with true. cbv iota.
  unfold amountRefused in Ha. rewrite Ha.
  destruct (Firestore.wishlistItems db !! id) as [data|] eqn:Hd.
  - now rewrite (transaction_commits _ _ _ _ _ _ _ Hd).
  - now rewrite (transaction_aborts _ _ _ _ _ _ Hd).
Qed.

(** Neither an item nor a cash item open to partial contributions: no
    branch of the handler runs (line 392). *)
Lemma handleContribute_no_branch ui now db id item u :
  currentEditingItem ui = Some (id, item) ->
  user ui = Some u ->
  String.eqb (Item.contributionType item) "item" = false ->
  String.eqb (Item.contributionType item) "cash"
  && Item.isPartialAllowed item = false ->
  handleContribute parseFloat ui now db = (db, Silent).
Proof.
  intros Hc Hu Ht Hp. unfold handleContribute.
  now rewrite Hc, Hu, nameToUse_nonempty, Ht, Hp.
Qed.

(** With a status other than ['Pending'] on display the form cannot be
    submitted. *)
Lemma submitContribution_not_pending ui now db id item :
  currentEditingItem ui = Some (id, item) ->
  Item.status item <> "Pending" ->
  submitContribution parseFloat ui now db = (db, Silent).
Proof.
  intros Hc Hs. unfold submitContribution, canSubmitContribution.
  rewrite Hc.
  destruct (String.eqb (Item.status item) "Pending") eqn:E; [|reflexivity].
  apply String.eqb_eq in E. contradiction.
Qed.

Lemma handleContribute_cases ui now db :
  contributeCase parseFloat ui now db (handleContribute parseFloat ui now db).
Proof.
  destruct (currentEditingItem ui) as [[id item]|] eqn:Hc.
  2: { unfold handleContribute. rewrite Hc. now constructor. }
  destruct (user ui) as [u|] eqn:Hu.
  2: { unfold handleContribute. rewrite Hc, Hu. eapply NoUser; eassumption. }
  destruct (String.eqb (Item.contributionType item) "item") eqn:Ht.
  { apply String.eqb_eq in Ht.
    rewrite (handleContribute_item _ _ _ _ _ _ Hc Hu Ht).
    destruct (Firestore.wishlistItems db !! id) as [d|] eqn:Hd.
    - eapply SignedUp; eassumption.
    - eapply SignUpFailed; eassumption. }
  destruct (String.eqb (Item.contributionType item) "cash"
            && Item.isPartialAllowed item) eqn:Hp.
  2: { rewrite (handleContribute_no_branch _ _ _ _ _ _ Hc Hu Ht Hp).
       eapply NoBranch; eassumption. }
  apply andb_true_iff in Hp as [Hcash Hp]. apply String.eqb_eq in Hcash.
  destruct (amountRefused (parseFloat (contributionAmount ui))) eqn:Ha.
  { rewrite (handleContribute_refused _ _ _ _ _ _ Hc Hu Hcash Hp Ha).
    eapply AmountRefused; eassumption. }
  rewrite (handleContribute_cash _ _ _ _ _ _ Hc Hu Hcash Hp Ha).
  destruct (Firestore.wishlistItems db !! id) as [d|] eqn:Hd.
  - eapply Contributed; eassumption.
  - eapply TransactionFailed; eassumption.
Qed.

End Paths.

(** ** What a cash contribution writes *)

Section CashContribution.

Variable parseFloat : string -> float.

Lemma contributed_item db id d c :
  Firestore.wishlistItems (contributed db id d c) !! id
  = Some (Item.patch
            [ Item.CurrentContributions
                (JS.orZero (Item.currentContributions d)
                 + Contribution.amount c)%float;
              Item.Status
                (if JS.ge (JS.orZero (Item.currentContributions d)
                           + Contribution.amount c)%float
                          (Item.expectedCost d)
                 then "Completed" else "Signed Up") ] d).
Proof. unfold contributed. cbn. apply lookup_insert_eq. Qed.

Lemma contributed_other_item db id d c id' :
  id' <> id ->
  Firestore.wishlistItems (contributed db id d c) !! id'
  = Firestore.wishlistItems db !! id'.
Proof. intros Hne. unfold contributed. cbn. now apply lookup_insert_ne. Qed.

Lemma contributed_log db id d c :
  Firestore.contributionsOf (contributed db id d c) id
  = Firestore.contributionsOf db id ++ [c].
Proof.
  unfold contributed, Firestore.contributionsOf at 1. cbn.
  now rewrite lookup_insert_eq.
Qed.

Lemma contributed_other_log db id d c id' :
  id' <> id ->
  Firestore.contributionsOf (contributed db id d c) id'
  = Firestore.contributionsOf db id'.
Proof.
  intros Hne. unfold contributed, Firestore.contributionsOf. cbn.
  now rewrite lookup_insert_ne.
Qed.

(** A contribution is thanked for only on the cash path, after the
    transaction committed. *)
Lemma thanked_inv ui now db db' :
  handleContribute parseFloat ui now db
  = (db', Alert "Thank you for your contribution!") ->
  exists id item u d,
    currentEditingItem ui = Some (id, item)
    /\ user ui = Some u
    /\ Item.contributionType item = "cash"
    /\ Item.isPartialAllowed item = true
    /\ amountRefused (parseFloat (contributionAmount ui)) = false
    /\ Firestore.wishlistItems db !! id = Some d
    /\ db' = contributed db id d
               (recordOf u ui (parseFloat (contributionAmount ui)) now).
Proof.
  intros H.
  pose proof (handleContribute_cases parseFloat ui now db) as Hcase.
  rewrite H in Hcase. inversion Hcase; subst.
  exists id, item, u, d. repeat split; assumption.
Qed.

(** C10: a successful Contribute on a Cumulative item with partialAllowed
    = true changes, in the item, only [currentContributions] and [status]:
    the item stays under its id with [itemName], [category],
    [expectedCost], [contributionType], [isPartialAllowed], [dateNeeded],
    [createdAt] (and the creator, edit and sign-up fields) as they were; it
    appends exactly one record to the item's log, carrying the
    contributor's id, name, the amount and the time; other items and
    other logs are untouched. *)
Theorem contribute_frame ui now db db' id item :
  currentEditingItem ui = Some (id, item) ->
  Item.contributionType item = "cash" ->
  Item.isPartialAllowed item = true ->
  handleContribute parseFloat ui now db
  = (db', Alert "Thank you for your contribution!") ->
  exists u d d',
    user ui = Some u
    /\ Firestore.wishlistItems db !! id = Some d
    /\ Firestore.wishlistItems db' !! id = Some d'
    /\ Item.itemName d' = Item.itemName d
    /\ Item.category d' = Item.category d
    /\ Item.expectedCost d' = Item.expectedCost d
    /\ Item.contributionType d' = Item.contributionType d
    /\ Item.isPartialAllowed d' = Item.isPartialAllowed d
    /\ Item.dateNeeded d' = Item.dateNeeded d
    /\ Item.createdAt d' = Item.createdAt d
    /\ Item.createdBy d' = Item.createdBy d
    /\ Item.creatorName d' = Item.creatorName d
    /\ Item.updatedAt d' = Item.updatedAt d
    /\ Item.contributorId d' = Item.contributorId d
    /\ Item.contributorName d' = Item.contributorName d
    /\ (forall id', id' <> id ->
          Firestore.wishlistItems db' !! id'
          = Firestore.wishlistItems db !! id')
    /\ Firestore.contributionsOf db' id
       = Firestore.contributionsOf db id
         ++ [ {| Contribution.userId := User.uid u;
                 Contribution.amount := parseFloat (contributionAmount ui);
                 Contribution.timestamp := now;
                 Contribution.contributorName := nameToUse u ui |} ]
    /\ (forall id', id' <> id ->
          Firestore.contributionsOf db' id'
          = Firestore.contributionsOf db id').
Proof.
  intros Hc _ _ H.
  destruct (thanked_inv _ _ _ _ H)
    as (id0 & item0 & u & d & Hc0 & Hu & _ & _ & _ & Hd & ->).
  rewrite Hc in Hc0. injection Hc0 as <- <-.
  exists u, d. eexists.
  split; [exact Hu|]. split; [exact Hd|].
  split; [apply contributed_item|].
  repeat (split; [reflexivity|]).
  split; [intros id' Hne; now apply contributed_other_item|].
  split; [apply contributed_log|].
  intros id' Hne; now apply contributed_other_log.
Qed.

End CashContribution.

Lemma contribute_frame_witness :
  exists u d d',
    user (viewing mary "bema" bemaTable "551") = Some u
    /\ Firestore.wishlistItems sampleStore !! "bema" = Some d
    /\ Firestore.wishlistItems
         (contributed sampleStore "bema" bemaTable
            (Contribution.mk "mary" 551 5%Z "Mary")) !! "bema" = Some d'
    /\ Item.itemName d' = Item.itemName d
    /\ Item.category d' = Item.category d
    /\ Item.expectedCost d' = Item.expectedCost d
    /\ Item.contributionType d' = Item.contributionType d
    /\ Item.isPartialAllowed d' = Item.isPartialAllowed d
    /\ Item.dateNeeded d' = Item.dateNeeded d
    /\ Item.createdAt d' = Item.createdAt d
    /\ Item.createdBy d' = Item.createdBy d
    /\ Item.creatorName d' = Item.creatorName d
    /\ Item.updatedAt d' = Item.updatedAt d
    /\ Item.contributorId d' = Item.contributorId d
    /\ Item.contributorName d' = Item.contributorName d
    /\ (forall id', id' <> "bema" ->
          Firestore.wishlistItems
            (contributed sampleStore "bema" bemaTable
               (Contribution.mk "mary" 551 5%Z "Mary")) !! id'
          = Firestore.wishlistItems sampleStore !! id')
    /\ Firestore.contributionsOf
         (contributed sampleStore "bema" bemaTable
            (Contribution.mk "mary" 551 5%Z "Mary")) "bema"
       = Firestore.contributionsOf sampleStore "bema"
         ++ [ {| Contribution.userId := User.uid u;
                 Contribution.amount := parseFloatTable "551";
                 Contribution.timestamp := 5%Z;
                 Contribution.contributorName :=
                   nameToUse u (viewing mary "bema" bemaTable "551") |} ]
    /\ (forall id', id' <> "bema" ->
          Firestore.contributionsOf
            (contributed sampleStore "bema" bemaTable
               (Contribution.mk "mary" 551 5%Z "Mary")) id'
          = Firestore.contributionsOf sampleStore id').
Proof.
  apply (contribute_frame parseFloatTable
           (viewing mary "bema" bemaTable "551") 5%Z sampleStore _ "bema"
           bemaTable).
  - reflexivity.
  - reflexivity.
  - reflexivity.
  - vm_compute. reflexivity.
Defined.

(** ** How the accumulated total evolves *)

Section Totals.

Variable parseFloat : string -> float.

(** C1 (as the code has it): across CreateItem, UpdateItem, Contribute
    (and DeleteItem), the accumulated total of an item changes in exactly two
    ways.  An add (CreateItem) by the admin stores the new item with total 0;
    a cash contribution that passed the amount check and found the item
    stores the previous total (0 when missing, zero or NaN) plus its own
    amount, [parseFloat(contributionAmount)], and is thanked for.  Every
    other item, and every item after an edit, a sign-up, a refused or failed
    contribution or a delete, has the total it had before.  The sum is
    never compared with [expectedCost]: no bound by [targetCost + epsilon]
    is kept. *)
Theorem total_changes_only_by_adding op db id d' :
  Firestore.wishlistItems (step parseFloat op db) !! id = Some d' ->
  match op with
  | SubmitItem ui now newId =>
      ((isEditing ui = false /\ isAdmin (user ui) = true /\ id = newId
        /\ Item.currentContributions d' = Some 0%float)
       \/ (exists d,
             Firestore.wishlistItems db !! id = Some d
             /\ Item.currentContributions d' = Item.currentContributions d))
      /\ (isEditing ui = false -> isAdmin (user ui) = true -> id = newId ->
          Item.currentContributions d' = Some 0%float)
  | Contribute ui now =>
      ((exists item u d,
           currentEditingItem ui = Some (id, item)
           /\ user ui = Some u
           /\ Item.contributionType item = "cash"
           /\ Item.isPartialAllowed item = true
           /\ amountRefused (parseFloat (contributionAmount ui)) = false
           /\ Firestore.wishlistItems db !! id = Some d
           /\ snd (handleContribute parseFloat ui now db)
              = Alert "Thank you for your contribution!"
           /\ Item.currentContributions d'
              = Some (JS.orZero (Item.currentContributions d)
                      + parseFloat (contributionAmount ui))%float)
       \/ (exists d,
             Firestore.wishlistItems db !! id = Some d
             /\ Item.currentContributions d' = Item.currentContributions d))
      /\ (forall item u d,
            currentEditingItem ui = Some (id, item) ->
            user ui = Some u ->
            Item.contributionType item = "cash" ->
            Item.isPartialAllowed item = true ->
            amountRefused (parseFloat (contributionAmount ui)) = false ->
            Firestore.wishlistItems db !! id = Some d ->
            Item.currentContributions d'
            = Some (JS.orZero (Item.currentContributions d)
                    + parseFloat (contributionAmount ui))%float)
  | DeleteItem ui =>
      exists d,
        Firestore.wishlistItems db !! id = Some d
        /\ Item.currentContributions d' = Item.currentContributions d
  end.
Proof.
  destruct op as [ui now newId | ui now | ui]; cbn [step].
  - unfold handleSubmitItem.
    destruct (user ui) as [u|];
      [|cbn; intros H; split; [eauto | discriminate]].
    destruct (isAdmin (Some u)); cbn [negb];
      [|cbn; intros H; split; [eauto | discriminate]].
    destruct (isEditing ui).
    + destruct (currentEditingItem ui) as [[eid eitem]|];
        [|cbn; intros H; split; [eauto | discriminate]].
      match goal with
      | |- context [Firestore.updateDoc db eid ?fs] =>
          destruct (Firestore.updateDoc db eid fs) as [db1|] eqn:Hup
      end; [|cbn; intros H; split; [eauto | discriminate]].
      apply updateDoc_Some in Hup as (d & Hd & ->).
      cbn [fst Firestore.wishlistItems].
      destruct (decide (id = eid)) as [->|Hne].
      * rewrite lookup_insert_eq. intros [= <-].
        split; [right; now exists d | discriminate].
      * rewrite lookup_insert_ne by congruence.
        intros H; split; [eauto | discriminate].
    + cbn [fst]. unfold Firestore.addDoc. cbn [Firestore.wishlistItems].
      destruct (decide (id = newId)) as [->|Hne].
      * rewrite lookup_insert_eq. intros [= <-].
        split; [left; now repeat split | reflexivity].
      * rewrite lookup_insert_ne by congruence.
        intros H; split; [eauto | congruence].
  - destruct (handleContribute_cases parseFloat ui now db)
      as [ Hc | eid item Hc Hu | eid item u d Hc Hu Ht Hd
         | eid item u Hc Hu Ht Hd | eid item u Hc Hu Ht Hp Ha
         | eid item u d Hc Hu Ht Hp Ha Hd | eid item u Hc Hu Ht Hp Ha Hd
         | eid item u Hc Hu Ht Hp ]; cbn [fst snd].
    + intros H. split; [eauto|]. intros; congruence.
    + intros H. split; [eauto|]. intros; congruence.
    + unfold signedUp. cbn [Firestore.wishlistItems].
      destruct (decide (id = eid)) as [->|Hne].
      * rewrite lookup_insert_eq. intros [= <-].
        split; [right; now exists d|].
        intros item' u' d0 Hc' _ Ht' _ _ _.
        rewrite Hc in Hc'. injection Hc' as <-. rewrite Ht in Ht'.
        discriminate Ht'.
      * rewrite lookup_insert_ne by congruence.
        intros H. split; [eauto|]. intros; congruence.
    + intros H. split; [eauto|]. intros; congruence.
    + intros H. split; [eauto|]. intros; congruence.
    + destruct (decide (id = eid)) as [->|Hne].
      * rewrite contributed_item. intros [= <-].
        split.
        -- left. exists item, u, d. now repeat split.
        -- intros item' u' d0 _ _ _ _ _ Hd'.
           rewrite Hd in Hd'. injection Hd' as <-. reflexivity.
      * rewrite contributed_other_item by exact Hne.
        intros H. split; [eauto|]. intros; congruence.
    + intros H. split; [eauto|]. intros; congruence.
    + intros H. split; [eauto|].
      intros item' u' d0 Hc' _ Ht' Hp' _ _.
      rewrite Hc in Hc'. injection Hc' as <- <-.
      rewrite Ht', Hp' in Hp. discriminate Hp.
  - unfold handleDeleteItem.
    destruct (currentEditingItem ui) as [[eid eitem]|]; [|cbn; eauto].
    destruct (isAdmin (user ui)); [|cbn; eauto].
    cbn [fst Firestore.deleteDoc Firestore.wishlistItems].
    intros Hl. apply lookup_delete_Some in Hl as [_ Hl]. eauto.
Qed.

End Totals.

Lemma total_changes_only_by_adding_witness :
  ((exists item u d,
       currentEditingItem (viewing mary "bema" bemaTable "551")
       = Some ("bema", item)
       /\ user (viewing mary "bema" bemaTable "551") = Some u
       /\ Item.contributionType item = "cash"
       /\ Item.isPartialAllowed item = true
       /\ amountRefused (parseFloatTable "551") = false
       /\ Firestore.wishlistItems sampleStore !! "bema" = Some d
       /\ snd (handleContribute parseFloatTable
                 (viewing mary "bema" bemaTable "551") 5%Z sampleStore)
          = Alert "Thank you for your contribution!"
       /\ Some 801%float
          = Some (JS.orZero (Item.currentContributions d)
                  + parseFloatTable "551")%float)
   \/ (exists d,
         Firestore.wishlistItems sampleStore !! "bema" = Some d
         /\ Some 801%float = Item.currentContributions d))
  /\ (forall item u d,
        currentEditingItem (viewing mary "bema" bemaTable "551")
        = Some ("bema", item) ->
        user (viewing mary "bema" bemaTable "551") = Some u ->
        Item.contributionType item = "cash" ->
        Item.isPartialAllowed item = true ->
        amountRefused (parseFloatTable "551") = false ->
        Firestore.wishlistItems sampleStore !! "bema" = Some d ->
        Some 801%float
        = Some (JS.orZero (Item.currentContributions d)
                + parseFloatTable "551")%float).
Proof.
  apply (total_changes_only_by_adding parseFloatTable
           (Contribute (viewing mary "bema" bemaTable "551") 5%Z)
           sampleStore "bema"
           (Item.patch [Item.CurrentContributions 801; Item.Status "Completed"]
              bemaTable)).
  vm_compute. reflexivity.
Defined.

(** C1, refuted as stated: the sample item 'Bema Table' (target 800, 250
    given) is within its target; a contribution of 551 is committed and
    leaves the total at 801, above [800 + epsilon]. *)
Lemma total_exceeds_target_after_contribute :
  withinTarget bemaTable = true
  /\ snd (handleContribute parseFloatTable
            (viewing mary "bema" bemaTable "551") 5%Z sampleStore)
     = Alert "Thank you for your contribution!"
  /\ Item.currentContributions
       <$> Firestore.wishlistItems
             (step parseFloatTable
                (Contribute (viewing mary "bema" bemaTable "551") 5%Z)
                sampleStore) !! "bema"
     = Some (Some 801%float)
  /\ withinTarget
       <$> Firestore.wishlistItems
             (step parseFloatTable
                (Contribute (viewing mary "bema" bemaTable "551") 5%Z)
                sampleStore) !! "bema"
     = Some false.
Proof. repeat split; vm_compute; reflexivity. Qed.

(** ** Overshoot and the status a contribution writes *)

Section Status.

Variable parseFloat : string -> float.

(** C2 (as the code has it): on a Cumulative item with partialAllowed =
    true, a Contribute whose amount takes the total above [expectedCost] is
    accepted, not refused and not capped: the caller is thanked, the total
    becomes the previous total plus the whole amount, the status becomes
    Completed, and one record carrying the whole amount is appended. *)
Theorem overshoot_is_committed ui now db id item u d :
  currentEditingItem ui = Some (id, item) ->
  user ui = Some u ->
  Item.contributionType item = "cash" ->
  Item.isPartialAllowed item = true ->
  amountRefused (parseFloat (contributionAmount ui)) = false ->
  Firestore.wishlistItems db !! id = Some d ->
  (Item.expectedCost d
   <? JS.orZero (Item.currentContributions d)
      + parseFloat (contributionAmount ui))%float = true ->
  exists db' d',
    handleContribute parseFloat ui now db
    = (db', Alert "Thank you for your contribution!")
    /\ Firestore.wishlistItems db' !! id = Some d'
    /\ Item.currentContributions d'
       = Some (JS.orZero (Item.currentContributions d)
               + parseFloat (contributionAmount ui))%float
    /\ Item.status d' = "Completed"
    /\ Firestore.contributionsOf db' id
       = Firestore.contributionsOf db id
         ++ [recordOf u ui (parseFloat (contributionAmount ui)) now].
Proof.
  intros Hc Hu Ht Hp Ha Hd Hover.
  eexists. eexists.
  rewrite (handleContribute_cash _ _ _ _ _ _ _ Hc Hu Ht Hp Ha), Hd.
  split; [reflexivity|].
  split; [apply contributed_item|].
  split; [reflexivity|].
  split; [|apply contributed_log].
  cbn. unfold JS.ge. now rewrite (ltb_leb _ _ Hover).
Qed.

(** C3 (as the code has it): the status a Contribute writes is, on a
    Cumulative item open to partial contributions, Completed exactly when
    the new total is at least [expectedCost], compared as is with no
    epsilon, and Signed Up otherwise; on an Exclusive item a sign-up writes
    Signed Up, never Completed. *)
Theorem status_written_by_contribute ui now db id item u d :
  currentEditingItem ui = Some (id, item) ->
  user ui = Some u ->
  Firestore.wishlistItems db !! id = Some d ->
  (Item.contributionType item = "item" ->
   exists d',
     Firestore.wishlistItems (fst (handleContribute parseFloat ui now db))
       !! id = Some d'
     /\ Item.status d' = "Signed Up")
  /\ (Item.contributionType item = "cash" ->
      Item.isPartialAllowed item = true ->
      amountRefused (parseFloat (contributionAmount ui)) = false ->
      exists d',
        Firestore.wishlistItems (fst (handleContribute parseFloat ui now db))
          !! id = Some d'
        /\ (Item.status d' = "Completed"
            <-> JS.ge (JS.orZero (Item.currentContributions d)
                       + parseFloat (contributionAmount ui))%float
                      (Item.expectedCost d) = true)
        /\ (Item.status d' = "Signed Up"
            <-> JS.ge (JS.orZero (Item.currentContributions d)
                       + parseFloat (contributionAmount ui))%float
                      (Item.expectedCost d) = false)).
Proof.
  intros Hc Hu Hd. split.
  - intros Ht.
    rewrite (handleContribute_item _ _ _ _ _ _ _ Hc Hu Ht), Hd.
    eexists. split; [apply lookup_insert_eq|reflexivity].
  - intros Ht Hp Ha.
    rewrite (handleContribute_cash _ _ _ _ _ _ _ Hc Hu Ht Hp Ha), Hd.
    eexists. split; [apply contributed_item|].
    cbn [Item.patch fold_left Item.set Item.status].
    destruct (JS.ge _ (Item.expectedCost d)); split; split; intros H;
      try reflexivity; discriminate H.
Qed.

End Status.

Lemma overshoot_is_committed_witness :
  exists db' d',
    handleContribute parseFloatTable (viewing mary "bema" bemaTable "551")
      5%Z sampleStore
    = (db', Alert "Thank you for your contribution!")
    /\ Firestore.wishlistItems db' !! "bema" = Some d'
    /\ Item.currentContributions d'
       = Some (JS.orZero (Item.currentContributions bemaTable)
               + parseFloatTable "551")%float
    /\ Item.status d' = "Completed"
    /\ Firestore.contributionsOf db' "bema"
       = Firestore.contributionsOf sampleStore "bema"
         ++ [recordOf mary (viewing mary "bema" bemaTable "551")
               (parseFloatTable "551") 5%Z].
Proof.
  apply (overshoot_is_committed parseFloatTable
           (viewing mary "bema" bemaTable "551") 5%Z sampleStore "bema"
           bemaTable mary bemaTable); reflexivity.
Defined.

(** C2, refuted as stated: with target 800 and 250 given, Contribute(551)
    is not refused: the caller is thanked, the total is 801 (more than
    [800 + epsilon]) and the record of 551 is in the log.  Contribute(550)
    gives 800 and Completed, as the claim says. *)
Lemma overshoot_not_rejected :
  handleContribute parseFloatTable (viewing mary "bema" bemaTable "551")
    5%Z sampleStore
  = (contributed sampleStore "bema" bemaTable
       (Contribution.mk "mary" 551 5%Z "Mary"),
     Alert "Thank you for your contribution!")
  /\ Firestore.wishlistItems
       (contributed sampleStore "bema" bemaTable
          (Contribution.mk "mary" 551 5%Z "Mary")) !! "bema"
     = Some (Item.patch
               [Item.CurrentContributions 801; Item.Status "Completed"]
               bemaTable)
  /\ (800 + epsilon <? 801)%float = true
  /\ Firestore.contributionsOf
       (contributed sampleStore "bema" bemaTable
          (Contribution.mk "mary" 551 5%Z "Mary")) "bema"
     = [Contribution.mk "mary" 551 5%Z "Mary"]
  /\ Firestore.wishlistItems
       (fst (handleContribute parseFloatTable
               (viewing mary "bema" bemaTable "550") 5%Z sampleStore))
       !! "bema"
     = Some (Item.patch
               [Item.CurrentContributions 800; Item.Status "Completed"]
               bemaTable).
Proof. repeat split; vm_compute; reflexivity. Qed.

Lemma status_written_by_contribute_witness :
  (exists d',
      Firestore.wishlistItems
        (fst (handleContribute parseFloatTable
                (viewing mary "alter" alterTable "") 5%Z sampleStore))
        !! "alter" = Some d'
      /\ Item.status d' = "Signed Up")
  /\ (exists d',
        Firestore.wishlistItems
          (fst (handleContribute parseFloatTable
                  (viewing mary "bema" bemaTable "10") 5%Z sampleStore))
          !! "bema" = Some d'
        /\ (Item.status d' = "Completed"
            <-> JS.ge (JS.orZero (Item.currentContributions bemaTable)
                       + parseFloatTable "10")%float
                      (Item.expectedCost bemaTable) = true)
        /\ (Item.status d' = "Signed Up"
            <-> JS.ge (JS.orZero (Item.currentContributions bemaTable)
                       + parseFloatTable "10")%float
                      (Item.expectedCost bemaTable) = false)).
Proof.
  split.
  - apply (proj1 (status_written_by_contribute parseFloatTable
                    (viewing mary "alter" alterTable "") 5%Z sampleStore
                    "alter" alterTable mary alterTable
                    eq_refl eq_refl eq_refl)).
    reflexivity.
  - apply (proj2 (status_written_by_contribute parseFloatTable
                    (viewing mary "bema" bemaTable "10") 5%Z sampleStore
                    "bema" bemaTable mary bemaTable
                    eq_refl eq_refl eq_refl)); reflexivity.
Defined.

(** C3, refuted as stated.  Cumulative: with target 800 and 250 given, a
    contribution of 800 - 2^-21 - 250 brings the total within epsilon of the
    target, which the specification's rule calls Fulfilled, yet the status
    written is Signed Up.  Exclusive: after a sign-up the item is claimed,
    which the rule calls Fulfilled, yet the status written is Signed Up. *)
Lemma status_differs_from_rule :
  (specFulfilled
     <$> Firestore.wishlistItems
           (fst (handleContribute parseFloatTable
                   (viewing mary "bema" bemaTable "549.999999523162841796875")
                   5%Z sampleStore)) !! "bema"
   = Some true
   /\ Item.status
        <$> Firestore.wishlistItems
              (fst (handleContribute parseFloatTable
                      (viewing mary "bema" bemaTable
                         "549.999999523162841796875")
                      5%Z sampleStore)) !! "bema"
      = Some "Signed Up")
  /\ (specFulfilled
        <$> Firestore.wishlistItems
              (fst (handleContribute parseFloatTable
                      (viewing mary "alter" alterTable "") 5%Z sampleStore))
              !! "alter"
      = Some true
      /\ Item.status
           <$> Firestore.wishlistItems
                 (fst (handleContribute parseFloatTable
                         (viewing mary "alter" alterTable "") 5%Z
                         sampleStore)) !! "alter"
         = Some "Signed Up").
Proof. repeat split; vm_compute; reflexivity. Qed.

(** ** Sign-ups, the Pending gate and edits *)

Section Gate.

Variable parseFloat : string -> float.

Lemma exclusive_contribute_keeps_log op db id :
  contributesAsExclusive id op ->
  Firestore.contributionsOf (step parseFloat op db) id
  = Firestore.contributionsOf db id.
Proof.
  destruct op as [| ui now |]; try contradiction.
  intros Hex. cbn [step].
  destruct (handleContribute_cases parseFloat ui now db)
    as [ | | | | | eid eitem u d Hc _ Ht _ _ _ | | ]; try reflexivity.
  cbn [fst]. destruct (decide (id = eid)) as [->|Hne].
  - specialize (Hex eitem Hc). congruence.
  - now apply contributed_other_log.
Qed.

Lemma exclusive_contributes_keep_log ops db id :
  Forall (contributesAsExclusive id) ops ->
  Firestore.contributionsOf (run parseFloat ops db) id
  = Firestore.contributionsOf db id.
Proof.
  intros Hops. revert db.
  induction Hops as [|op ops Hop _ IH]; intros db; [reflexivity|].
  unfold run in *. cbn [fold_left]. rewrite IH.
  now apply exclusive_contribute_keeps_log.
Qed.

(** C4 (as the code has it): [handleContribute] takes its path from the
    displayed copy of the item and does not read the stored claim.  Over any
    sequence of Contribute operations in which every Contribute made on an
    item is made from a copy that shows it as Exclusive (Contributes on
    other items may be of any kind), a log of that item holding at most one
    ContributionRecord still holds at most one.  And a Contribute made from
    a copy that shows the item as Exclusive is applied whenever the stored
    document exists, whatever it holds, an earlier claim included: the
    caller gets the sign-up confirmation, the status is Signed Up and the
    contributor is the caller. *)
Theorem sign_ups_keep_at_most_one_record ops db id :
  Forall (contributesAsExclusive id) ops ->
  (length (Firestore.contributionsOf db id) <= 1 ->
   length (Firestore.contributionsOf (run parseFloat ops db) id) <= 1)
  /\ (forall ui now item u d,
        currentEditingItem ui = Some (id, item) ->
        Item.contributionType item = "item" ->
        user ui = Some u ->
        Firestore.wishlistItems db !! id = Some d ->
        snd (handleContribute parseFloat ui now db)
        = Alert "You have successfully signed up for this item!"
        /\ exists d',
             Firestore.wishlistItems
               (fst (handleContribute parseFloat ui now db)) !! id = Some d'
             /\ Item.status d' = "Signed Up"
             /\ Item.contributorId d' = Some (User.uid u)
             /\ Item.contributorName d' = Some (nameToUse u ui)).
Proof.
  intros Hops. split.
  - now rewrite (exclusive_contributes_keep_log ops db id Hops).
  - intros ui now item u d Hc Ht Hu Hd.
    rewrite (handleContribute_item _ _ _ _ _ _ _ Hc Hu Ht), Hd.
    split; [reflexivity|].
    eexists. split; [apply lookup_insert_eq|]. now repeat split.
Qed.

(** C5 (as the code has it): while the displayed copy of an item has
    status Completed, the form has no submit button: nothing is written to
    the total, the claim or the log, and no error is raised.  The handler
    itself never reads the stored status: whatever the stored document of
    the item holds, a Completed status included, a contribution of a valid
    amount made from a copy that shows a cash item open to partial
    contributions is thanked for, adds its amount to the stored total and
    appends its record; and a sign-up made from a copy that shows an
    Exclusive item is confirmed and writes Signed Up and the caller as
    contributor. *)
Theorem completed_item_takes_no_submit ui now db id item :
  currentEditingItem ui = Some (id, item) ->
  (Item.status item = "Completed" ->
   submitContribution parseFloat ui now db = (db, Silent))
  /\ (forall u d,
        user ui = Some u ->
        Firestore.wishlistItems db !! id = Some d ->
        (Item.contributionType item = "cash" ->
         Item.isPartialAllowed item = true ->
         amountRefused (parseFloat (contributionAmount ui)) = false ->
         snd (handleContribute parseFloat ui now db)
         = Alert "Thank you for your contribution!"
         /\ Item.currentContributions
              <$> Firestore.wishlistItems
                    (fst (handleContribute parseFloat ui now db)) !! id
            = Some (Some (JS.orZero (Item.currentContributions d)
                          + parseFloat (contributionAmount ui))%float)
         /\ Firestore.contributionsOf
              (fst (handleContribute parseFloat ui now db)) id
            = Firestore.contributionsOf db id
              ++ [recordOf u ui (parseFloat (contributionAmount ui)) now])
        /\ (Item.contributionType item = "item" ->
            snd (handleContribute parseFloat ui now db)
            = Alert "You have successfully signed up for this item!"
            /\ Item.status
                 <$> Firestore.wishlistItems
                       (fst (handleContribute parseFloat ui now db)) !! id
               = Some "Signed Up"
            /\ Item.contributorId
                 <$> Firestore.wishlistItems
                       (fst (handleContribute parseFloat ui now db)) !! id
               = Some (Some (User.uid u)))).
Proof.
  intros Hc. split.
  - intros Hs. apply (submitContribution_not_pending _ _ _ _ id item Hc).
    rewrite Hs. discriminate.
  - intros u d Hu Hd. split.
    + intros Ht Hp Ha.
      rewrite (handleContribute_cash _ _ _ _ _ _ _ Hc Hu Ht Hp Ha), Hd.
      cbn [fst snd]. rewrite contributed_item, contributed_log.
      now repeat split.
    + intros Ht.
      rewrite (handleContribute_item _ _ _ _ _ _ _ Hc Hu Ht), Hd.
      cbn [fst snd]. unfold signedUp. cbn [Firestore.wishlistItems].
      rewrite lookup_insert_eq. now repeat split.
Qed.

(** C7 (as the code has it): UpdateItem writes the edited fields and
    [updatedAt] only.  The stored status, total and contributor are left
    as they were, whatever the new [expectedCost], and no record is
    appended: the status is not derived again. *)
Theorem edit_keeps_status_and_total ui now newId db id item d :
  isEditing ui = true ->
  currentEditingItem ui = Some (id, item) ->
  Firestore.wishlistItems db !! id = Some d ->
  exists d',
    Firestore.wishlistItems
      (fst (handleSubmitItem parseFloat ui now newId db)) !! id = Some d'
    /\ Item.status d' = Item.status d
    /\ Item.currentContributions d' = Item.currentContributions d
    /\ Item.contributorId d' = Item.contributorId d
    /\ Item.contributorName d' = Item.contributorName d
    /\ (isAdmin (user ui) = true ->
        Item.expectedCost d' = parseFloat (itemCost ui))
    /\ Firestore.contributions
         (fst (handleSubmitItem parseFloat ui now newId db))
       = Firestore.contributions db.
Proof.
  intros He Hc Hd. unfold handleSubmitItem.
  destruct (user ui) as [u|]; [|exists d; now repeat split].
  destruct (isAdmin (Some u)); [|exists d; now repeat split].
  cbn [negb]. rewrite He, Hc, (updateDoc_found _ _ _ _ Hd).
  eexists. split; [apply lookup_insert_eq|]. now repeat split.
Qed.

End Gate.

Lemma sign_ups_keep_at_most_one_record_witness :
  (length (Firestore.contributionsOf sampleStore "alter") <= 1 ->
   length
     (Firestore.contributionsOf
        (run parseFloatTable
           [ Contribute (viewing mary "alter" alterTable "") 5%Z;
             Contribute (viewing john "bema" bemaTable "10") 6%Z;
             Contribute (viewing john "alter" alterTable "") 7%Z ]
           sampleStore) "alter") <= 1)
  /\ (forall ui now item u d,
        currentEditingItem ui = Some ("alter", item) ->
        Item.contributionType item = "item" ->
        user ui = Some u ->
        Firestore.wishlistItems sampleStore !! "alter" = Some d ->
        snd (handleContribute parseFloatTable ui now sampleStore)
        = Alert "You have successfully signed up for this item!"
        /\ exists d',
             Firestore.wishlistItems
               (fst (handleContribute parseFloatTable ui now sampleStore))
               !! "alter" = Some d'
             /\ Item.status d' = "Signed Up"
             /\ Item.contributorId d' = Some (User.uid u)
             /\ Item.contributorName d' = Some (nameToUse u ui)).
Proof.
  apply (sign_ups_keep_at_most_one_record parseFloatTable
           [ Contribute (viewing mary "alter" alterTable "") 5%Z;
             Contribute (viewing john "bema" bemaTable "10") 6%Z;
             Contribute (viewing john "alter" alterTable "") 7%Z ]
           sampleStore "alter").
  repeat constructor; intros item H; cbn in H;
    first [discriminate H | now injection H as <-].
Defined.

(** C4, refuted as stated: Mary signs up for the sample item 'Alter
    Table'; John, whose modal still shows the item as Pending, signs up
    after her.  His Contribute is not rejected: it succeeds and replaces
    Mary as the contributor of the already claimed item. *)
Lemma second_sign_up_is_applied :
  canSubmitContribution (viewing john "alter" alterTable "") = true
  /\ Item.contributorId
       <$> Firestore.wishlistItems
             (fst (submitContribution parseFloatTable
                     (viewing mary "alter" alterTable "") 5%Z sampleStore))
             !! "alter"
     = Some (Some "mary")
  /\ snd (submitContribution parseFloatTable
            (viewing john "alter" alterTable "") 6%Z
            (fst (submitContribution parseFloatTable
                    (viewing mary "alter" alterTable "") 5%Z sampleStore)))
     = Alert "You have successfully signed up for this item!"
  /\ Item.contributorId
       <$> Firestore.wishlistItems
             (fst (submitContribution parseFloatTable
                     (viewing john "alter" alterTable "") 6%Z
                     (fst (submitContribution parseFloatTable
                             (viewing mary "alter" alterTable "") 5%Z
                             sampleStore)))) !! "alter"
     = Some (Some "john").
Proof. repeat split; vm_compute; reflexivity. Qed.

Lemma completed_item_takes_no_submit_witness :
  (Item.status completedBema = "Completed" ->
   submitContribution parseFloatTable
     (viewing john "it" completedBema "10") 6%Z (storeOf completedBema)
   = (storeOf completedBema, Silent))
  /\ (forall u d,
        user (viewing john "it" completedBema "10") = Some u ->
        Firestore.wishlistItems (storeOf completedBema) !! "it" = Some d ->
        (Item.contributionType completedBema = "cash" ->
         Item.isPartialAllowed completedBema = true ->
         amountRefused (parseFloatTable "10") = false ->
         snd (handleContribute parseFloatTable
                (viewing john "it" completedBema "10") 6%Z
                (storeOf completedBema))
         = Alert "Thank you for your contribution!"
         /\ Item.currentContributions
              <$> Firestore.wishlistItems
                    (fst (handleContribute parseFloatTable
                            (viewing john "it" completedBema "10") 6%Z
                            (storeOf completedBema))) !! "it"
            = Some (Some (JS.orZero (Item.currentContributions d)
                          + parseFloatTable "10")%float)
         /\ Firestore.contributionsOf
              (fst (handleContribute parseFloatTable
                      (viewing john "it" completedBema "10") 6%Z
                      (storeOf completedBema))) "it"
            = Firestore.contributionsOf (storeOf completedBema) "it"
              ++ [recordOf u (viewing john "it" completedBema "10")
                    (parseFloatTable "10") 6%Z])
        /\ (Item.contributionType completedBema = "item" ->
            snd (handleContribute parseFloatTable
                   (viewing john "it" completedBema "10") 6%Z
                   (storeOf completedBema))
            = Alert "You have successfully signed up for this item!"
            /\ Item.status
                 <$> Firestore.wishlistItems
                       (fst (handleContribute parseFloatTable
                               (viewing john "it" completedBema "10") 6%Z
                               (storeOf completedBema))) !! "it"
               = Some "Signed Up"
            /\ Item.contributorId
                 <$> Firestore.wishlistItems
                       (fst (handleContribute parseFloatTable
                               (viewing john "it" completedBema "10") 6%Z
                               (storeOf completedBema))) !! "it"
               = Some (Some (User.uid u)))).
Proof.
  apply (completed_item_takes_no_submit parseFloatTable
           (viewing john "it" completedBema "10") 6%Z
           (storeOf completedBema) "it" completedBema).
  reflexivity.
Defined.

(** C5, refuted as stated: Mary's 550 completes the sample item 'Bema
    Table' (total 800, Completed).  John, whose modal still shows the item
    as Pending, then contributes 10: he is thanked, the total of the
    Completed item becomes 810 and a second record is in the log. *)
Lemma completed_item_still_takes_contribution :
  Item.status
    <$> Firestore.wishlistItems
          (fst (submitContribution parseFloatTable
                  (viewing mary "bema" bemaTable "550") 5%Z sampleStore))
          !! "bema"
  = Some "Completed"
  /\ submitContribution parseFloatTable
       (viewing john "bema" bemaTable "10") 6%Z
       (fst (submitContribution parseFloatTable
               (viewing mary "bema" bemaTable "550") 5%Z sampleStore))
     = (contributed
          (fst (submitContribution parseFloatTable
                  (viewing mary "bema" bemaTable "550") 5%Z sampleStore))
          "bema"
          (Item.patch [Item.CurrentContributions 800; Item.Status "Completed"]
             bemaTable)
          (Contribution.mk "john" 10 6%Z "John"),
        Alert "Thank you for your contribution!")
  /\ Item.currentContributions
       <$> Firestore.wishlistItems
             (fst (submitContribution parseFloatTable
                     (viewing john "bema" bemaTable "10") 6%Z
                     (fst (submitContribution parseFloatTable
                             (viewing mary "bema" bemaTable "550") 5%Z
                             sampleStore)))) !! "bema"
     = Some (Some 810%float)
  /\ Firestore.contributionsOf
       (fst (submitContribution parseFloatTable
               (viewing john "bema" bemaTable "10") 6%Z
               (fst (submitContribution parseFloatTable
                       (viewing mary "bema" bemaTable "550") 5%Z
                       sampleStore)))) "bema"
     = [ Contribution.mk "mary" 550 5%Z "Mary";
         Contribution.mk "john" 10 6%Z "John" ].
Proof. repeat split; vm_compute; reflexivity. Qed.

Lemma edit_keeps_status_and_total_witness :
  exists d',
    Firestore.wishlistItems
      (fst (handleSubmitItem parseFloatTable
              (editing "it" partlyFunded "700") 7%Z "new"
              (storeOf partlyFunded))) !! "it" = Some d'
    /\ Item.status d' = Item.status partlyFunded
    /\ Item.currentContributions d' = Item.currentContributions partlyFunded
    /\ Item.contributorId d' = Item.contributorId partlyFunded
    /\ Item.contributorName d' = Item.contributorName partlyFunded
    /\ (isAdmin (user (editing "it" partlyFunded "700")) = true ->
        Item.expectedCost d' = parseFloatTable "700")
    /\ Firestore.contributions
         (fst (handleSubmitItem parseFloatTable
                 (editing "it" partlyFunded "700") 7%Z "new"
                 (storeOf partlyFunded)))
       = Firestore.contributions (storeOf partlyFunded).
Proof.
  apply (edit_keeps_status_and_total parseFloatTable
           (editing "it" partlyFunded "700") 7%Z "new" (storeOf partlyFunded)
           "it" partlyFunded partlyFunded); reflexivity.
Defined.

(** C7, refuted as stated: an item with target 1000, 800 given and status
    Signed Up; the admin lowers the target to 700.  The edit is stored, the
    total 800 now reaches the target, and the status is still Signed Up. *)
Lemma lowered_target_keeps_status :
  handleSubmitItem parseFloatTable (editing "it" partlyFunded "700") 7%Z "new"
    (storeOf partlyFunded)
  = (storeOf
       (Item.patch [Item.ExpectedCost 700; Item.UpdatedAt 7%Z] partlyFunded),
     Alert "Item updated successfully!")
  /\ JS.ge
       (JS.orZero
          (Item.currentContributions
             (Item.patch [Item.ExpectedCost 700; Item.UpdatedAt 7%Z]
                partlyFunded)))
       (Item.expectedCost
          (Item.patch [Item.ExpectedCost 700; Item.UpdatedAt 7%Z]
             partlyFunded))
     = true
  /\ specFulfilled
       (Item.patch [Item.ExpectedCost 700; Item.UpdatedAt 7%Z] partlyFunded)
     = true
  /\ Item.status
       (Item.patch [Item.ExpectedCost 700; Item.UpdatedAt 7%Z] partlyFunded)
     = "Signed Up".
Proof. repeat split; vm_compute; reflexivity. Qed.

(** ** Failed attempts, atomicity and the amount check *)

Section Atomicity.

Variable parseFloat : string -> float.

(** X16: a call of [handleContribute] that neither thanks for a
    contribution nor confirms a sign-up has written nothing: whatever else
    it answers (an error alert, the amount alert, nothing at all, an
    uncaught exception), the store is the one it was given. *)
Lemma failed_contribute_writes_nothing ui now db db' out :
  handleContribute parseFloat ui now db = (db', out) ->
  out <> Alert "Thank you for your contribution!" ->
  out <> Alert "You have successfully signed up for this item!" ->
  db' = db.
Proof.
  intros H Hn1 Hn2.
  pose proof (handleContribute_cases parseFloat ui now db) as Hcase.
  rewrite H in Hcase. inversion Hcase; subst; congruence.
Qed.

(** A transaction commits all of its writes or leaves the store as it
    was. *)
Lemma runTransaction_all_or_nothing db body :
  match Firestore.runTransaction db body with
  | inr db' =>
      exists ws, Firestore.commit db ws = Some db'
                 /\ exists u, body db [] = inr (u, ws)
  | inl _ => True
  end.
Proof.
  unfold Firestore.runTransaction.
  destruct (body db []) as [e|[u ws]]; [exact I|].
  destruct (Firestore.commit db ws) as [db'|] eqn:Hcommit; [|exact I].
  exists ws. split; [exact Hcommit|]. now exists u.
Qed.

(** X19: on the cash path the total and the record go together: after
    the call either the store is the one before it, or the item carries the
    new total and the log its new record. *)
Lemma cash_contribution_is_atomic ui now db id item u :
  currentEditingItem ui = Some (id, item) ->
  user ui = Some u ->
  Item.contributionType item = "cash" ->
  Item.isPartialAllowed item = true ->
  fst (handleContribute parseFloat ui now db) = db
  \/ exists d,
       Firestore.wishlistItems db !! id = Some d
       /\ Item.currentContributions
            <$> Firestore.wishlistItems
                  (fst (handleContribute parseFloat ui now db)) !! id
          = Some (Some (JS.orZero (Item.currentContributions d)
                        + parseFloat (contributionAmount ui))%float)
       /\ Firestore.contributionsOf
            (fst (handleContribute parseFloat ui now db)) id
          = Firestore.contributionsOf db id
            ++ [recordOf u ui (parseFloat (contributionAmount ui)) now].
Proof.
  intros Hc Hu Ht Hp.
  destruct (amountRefused (parseFloat (contributionAmount ui))) eqn:Ha.
  - left. now rewrite (handleContribute_refused _ _ _ _ _ _ _ Hc Hu Ht Hp Ha).
  - rewrite (handleContribute_cash _ _ _ _ _ _ _ Hc Hu Ht Hp Ha).
    destruct (Firestore.wishlistItems db !! id) as [d|] eqn:Hd;
      [right | now left].
    exists d. split; [reflexivity|]. cbn [fst].
    rewrite contributed_item, contributed_log. now split.
Qed.

(** X17: on a cash item open to partial contributions, an amount that
    parses to NaN or to a number at or below zero is turned away with
    'Please enter a valid contribution amount.', and the store stays as it
    was. *)
Lemma invalid_amount_writes_nothing ui now db id item u :
  currentEditingItem ui = Some (id, item) ->
  user ui = Some u ->
  Item.contributionType item = "cash" ->
  Item.isPartialAllowed item = true ->
  JS.isNaN (parseFloat (contributionAmount ui)) = true
  \/ JS.le (parseFloat (contributionAmount ui)) 0 = true ->
  handleContribute parseFloat ui now db
  = (db, Alert "Please enter a valid contribution amount.").
Proof.
  intros Hc Hu Ht Hp Ha.
  apply (handleContribute_refused _ _ _ _ _ _ _ Hc Hu Ht Hp).
  unfold amountRefused. destruct Ha as [-> | ->]; [reflexivity|].
  apply orb_true_r.
Qed.

End Atomicity.

(** C6, evaluated: a Pending Cumulative item with partialAllowed = false
    and target 800 shows its submit button, yet Contribute(800) writes
    nothing and reports nothing; the item stays Pending with total 0. *)
Theorem full_amount_contribution_is_dropped :
  canSubmitContribution (viewing mary "it" fullAmountOnly "800") = true
  /\ submitContribution parseFloatTable
       (viewing mary "it" fullAmountOnly "800") 5%Z (storeOf fullAmountOnly)
     = (storeOf fullAmountOnly, Silent).
Proof. split; vm_compute; reflexivity. Qed.

(** C8, evaluated: a sign-up on the sample item 'Alter Table' commits the
    claim (status Signed Up, contributor Mary) and appends no record: the
    log of the item is still empty. *)
Theorem sign_up_commits_claim_without_record :
  handleContribute parseFloatTable (viewing mary "alter" alterTable "") 5%Z
    sampleStore
  = (signedUp sampleStore "alter" alterTable mary
       (viewing mary "alter" alterTable ""),
     Alert "You have successfully signed up for this item!")
  /\ claimed
       <$> Firestore.wishlistItems
             (signedUp sampleStore "alter" alterTable mary
                (viewing mary "alter" alterTable "")) !! "alter"
     = Some true
  /\ claimed <$> Firestore.wishlistItems sampleStore !! "alter" = Some false
  /\ Firestore.contributionsOf
       (signedUp sampleStore "alter" alterTable mary
          (viewing mary "alter" alterTable "")) "alter"
     = [].
Proof. repeat split; vm_compute; reflexivity. Qed.


(** ** The paths of [handleSubmitItem] and [handleDeleteItem] *)

Section Admin.

Variable parseFloat : string -> float.

Lemma handleSubmitItem_cases ui now newId db :
  submitCase parseFloat ui now newId db
    (handleSubmitItem parseFloat ui now newId db).
Proof.
  unfold handleSubmitItem.
  destruct (user ui) as [u|] eqn:Hu; [|now apply SubmitDenied; rewrite Hu].
  destruct (isAdmin (Some u)) eqn:Ha; cbn [negb];
    [|apply SubmitDenied; now rewrite Hu].
  destruct (isEditing ui) eqn:He.
  - destruct (currentEditingItem ui) as [[id item]|] eqn:Hc.
    + destruct (Firestore.wishlistItems db !! id) as [d|] eqn:Hd.
      * rewrite (updateDoc_found _ _ _ _ Hd).
        apply (Edited parseFloat ui now newId db id item d);
          [now rewrite Hu | exact He | exact Hc | exact Hd].
      * rewrite (updateDoc_None _ _ _ Hd).
        apply EditFailed; [now rewrite Hu | exact He |].
        right. now exists id, item.
    + apply EditFailed; [now rewrite Hu | exact He | now left].
  - apply (Added parseFloat ui now newId db u);
      [exact Hu | now rewrite Hu | exact He].
Qed.

Lemma handleSubmitItem_contributions ui now newId db :
  Firestore.contributions (fst (handleSubmitItem parseFloat ui now newId db))
  = Firestore.contributions db.
Proof.
  destruct (handleSubmitItem_cases ui now newId db); reflexivity.
Qed.

Lemma handleDeleteItem_contributions ui db :
  Firestore.contributions (fst (handleDeleteItem ui db))
  = Firestore.contributions db.
Proof.
  unfold handleDeleteItem.
  destruct (currentEditingItem ui) as [[id item]|]; [|reflexivity].
  now destruct (isAdmin (user ui)).
Qed.

End Admin.

(** ** What every operation keeps *)

Section Ledger.

Variable parseFloat : string -> float.

Lemma step_log_prefix op db id :
  Firestore.contributionsOf db id
  `prefix_of` Firestore.contributionsOf (step parseFloat op db) id.
Proof.
  destruct op as [ui now newId | ui now | ui]; cbn [step].
  - unfold Firestore.contributionsOf.
    now rewrite handleSubmitItem_contributions.
  - destruct (handleContribute_cases parseFloat ui now db)
      as [ | | | | | eid item u d _ _ _ _ _ _ | | ]; try reflexivity.
    cbn [fst]. destruct (decide (id = eid)) as [->|Hne].
    + rewrite contributed_log. now apply prefix_app_r.
    + now rewrite contributed_other_log.
  - unfold Firestore.contributionsOf.
    now rewrite handleDeleteItem_contributions.
Qed.

(** X1: the contribution logs are append-only.  Over any sequence of
    handler calls (add, edit, contribute, sign up, delete), the log an item
    id had at the start is a prefix of the log it has at the end: no handler
    removes, reorders or rewrites a record, not even the deletion of the
    item. *)
Theorem logs_are_append_only ops db id :
  Firestore.contributionsOf db id
  `prefix_of` Firestore.contributionsOf (run parseFloat ops db) id.
Proof.
  revert db. induction ops as [|op ops IH]; intros db; [reflexivity|].
  unfold run in *. cbn [fold_left].
  etransitivity; [apply (step_log_prefix op)|apply IH].
Qed.

(** X2: neither a Contribute nor an edit creates or removes an item
    document: the set of item ids is the same after [handleContribute], and
    after [handleSubmitItem] in edit mode, whatever the form and the store
    hold (so a contribution or an edit issued for an item that was deleted
    meanwhile does not bring it back). *)
Theorem contribute_and_edit_keep_item_ids ui ui' now newId db :
  isEditing ui' = true ->
  dom (Firestore.wishlistItems (fst (handleContribute parseFloat ui now db)))
  = dom (Firestore.wishlistItems db)
  /\ dom (Firestore.wishlistItems
            (fst (handleSubmitItem parseFloat ui' now newId db)))
     = dom (Firestore.wishlistItems db).
Proof.
  intros He. split.
  - destruct (handleContribute_cases parseFloat ui now db)
      as [ | | eid item u d _ _ _ Hd | | | eid item u d _ _ _ _ _ Hd | | ];
      try reflexivity.
    + cbn. apply dom_insert_lookup_L. now rewrite Hd.
    + cbn. apply dom_insert_lookup_L. now rewrite Hd.
  - destruct (handleSubmitItem_cases parseFloat ui' now newId db)
      as [ | id item d _ _ _ Hd | | u _ _ He']; try reflexivity.
    + cbn. apply dom_insert_lookup_L. now rewrite Hd.
    + congruence.
Qed.

Lemma step_statuses_known op db :
  statusesKnown db -> statusesKnown (step parseFloat op db).
Proof.
  unfold statusesKnown. intros Hk.
  destruct op as [ui now newId | ui now | ui]; cbn [step].
  - destruct (handleSubmitItem_cases parseFloat ui now newId db)
      as [ | id item d _ _ _ Hd | | u _ _ _]; try exact Hk.
    + cbn. apply map_Forall_insert_2; [|exact Hk]. exact (Hk _ _ Hd).
    + cbn. now apply map_Forall_insert_2.
  - destruct (handleContribute_cases parseFloat ui now db)
      as [ | | eid item u d _ _ _ Hd | | | eid item u d _ _ _ _ _ Hd | | ];
      try exact Hk.
    + cbn. now apply map_Forall_insert_2.
    + unfold contributed. cbn [fst Firestore.wishlistItems].
      apply map_Forall_insert_2; [|exact Hk].
      cbn [Item.patch fold_left Item.set Item.status].
      now destruct (JS.ge _ (Item.expectedCost d)).
  - unfold handleDeleteItem.
    destruct (currentEditingItem ui) as [[id item]|]; [|exact Hk].
    destruct (isAdmin (user ui)); [|exact Hk].
    cbn. now apply map_Forall_delete.
Qed.

(** X3: the handlers only ever store the statuses 'Pending', 'Signed Up'
    and 'Completed'.  If every stored item has one of the three, so has
    every stored item after any sequence of handler calls. *)
Theorem statuses_stay_known ops db :
  statusesKnown db -> statusesKnown (run parseFloat ops db).
Proof.
  revert db. induction ops as [|op ops IH]; intros db Hk; [exact Hk|].
  unfold run in *. cbn [fold_left]. apply IH. now apply step_statuses_known.
Qed.

Lemma step_partial_only_for_cash op db :
  partialOnlyForCash db -> partialOnlyForCash (step parseFloat op db).
Proof.
  unfold partialOnlyForCash. intros Hk.
  destruct op as [ui now newId | ui now | ui]; cbn [step].
  - destruct (handleSubmitItem_cases parseFloat ui now newId db)
      as [ | id item d _ _ _ Hd | | u _ _ _]; try exact Hk.
    + cbn. apply map_Forall_insert_2; [|exact Hk].
      cbn. intros Hp. apply andb_true_iff in Hp as [Hp _].
      now apply String.eqb_eq.
    + cbn. apply map_Forall_insert_2; [|exact Hk].
      cbn. intros Hp. apply andb_true_iff in Hp as [Hp _].
      now apply String.eqb_eq.
  - destruct (handleContribute_cases parseFloat ui now db)
      as [ | | eid item u d _ _ _ Hd | | | eid item u d _ _ _ _ _ Hd | | ];
      try exact Hk.
    + cbn. apply map_Forall_insert_2; [|exact Hk]. exact (Hk _ _ Hd).
    + cbn. apply map_Forall_insert_2; [|exact Hk]. exact (Hk _ _ Hd).
  - unfold handleDeleteItem.
    destruct (currentEditingItem ui) as [[id item]|]; [|exact Hk].
    destruct (isAdmin (user ui)); [|exact Hk].
    cbn. now apply map_Forall_delete.
Qed.

(** X4: an item open to partial contributions is always a cash item.  Add
    and edit store [isPartialAllowed] as [contributionType === 'cash' &&
    partialContributionAllowed], and no other handler writes either field:
    if the rule holds of every stored item it holds after any sequence of
    handler calls. *)
Theorem partial_stays_cash_only ops db :
  partialOnlyForCash db -> partialOnlyForCash (run parseFloat ops db).
Proof.
  revert db. induction ops as [|op ops IH]; intros db Hk; [exact Hk|].
  unfold run in *. cbn [fold_left]. apply IH.
  now apply step_partial_only_for_cash.
Qed.

(** X5: [handleContribute] never asks for a name.  The name falls back to
    'Anonymous', so the check [!nameToUse] cannot fire: no call ends with
    the alert 'Please enter your name to contribute.', also for an
    anonymous visitor who typed no name. *)
Theorem name_prompt_never_shown ui now db :
  snd (handleContribute parseFloat ui now db)
  <> Alert "Please enter your name to contribute.".
Proof.
  destruct (handleContribute_cases parseFloat ui now db); discriminate.
Qed.

(** X6: a Contribute writes to the item open in the details modal and to
    nothing else.  Whatever the outcome, every other item document and
    every other item's log are as they were. *)
Theorem contribute_touches_only_open_item ui now db id item id' :
  currentEditingItem ui = Some (id, item) ->
  id' <> id ->
  Firestore.wishlistItems (fst (handleContribute parseFloat ui now db)) !! id'
  = Firestore.wishlistItems db !! id'
  /\ Firestore.contributionsOf
       (fst (handleContribute parseFloat ui now db)) id'
     = Firestore.contributionsOf db id'.
Proof.
  intros Hc0 Hne.
  destruct (handleContribute_cases parseFloat ui now db)
    as [ Hc | eid eitem Hc _ | eid eitem u d Hc _ _ _ | eid eitem u Hc _ _ _
       | eid eitem u Hc _ _ _ _ | eid eitem u d Hc _ _ _ _ _
       | eid eitem u Hc _ _ _ _ _ | eid eitem u Hc _ _ _ ];
    rewrite Hc0 in Hc; try discriminate Hc; injection Hc as <- <-;
    cbn [fst]; try (now split).
  - split; [|reflexivity].
    unfold signedUp. cbn. now apply lookup_insert_ne.
  - split.
    + now apply contributed_other_item.
    + now apply contributed_other_log.
Qed.

End Ledger.

Lemma statuses_stay_known_witness :
  statusesKnown
    (run parseFloatTable
       [ Contribute (viewing mary "bema" bemaTable "551") 5%Z;
         Contribute (viewing john "alter" alterTable "") 6%Z;
         DeleteItem (viewing admin "flag" newFlagPole "") ]
       sampleStore).
Proof.
  apply (statuses_stay_known parseFloatTable).
  unfold statusesKnown, sampleStore. cbn.
  repeat (apply map_Forall_insert_2; [reflexivity|]).
  apply map_Forall_empty.
Defined.

Lemma partial_stays_cash_only_witness :
  partialOnlyForCash
    (run parseFloatTable
       [ Contribute (viewing mary "bema" bemaTable "551") 5%Z;
         SubmitItem (editing "alter" alterTable "800") 6%Z "new" ]
       sampleStore).
Proof.
  apply (partial_stays_cash_only parseFloatTable).
  unfold partialOnlyForCash, sampleStore. cbn.
  repeat (apply map_Forall_insert_2; [cbn; intros H; first [reflexivity | discriminate H]|]).
  apply map_Forall_empty.
Defined.

Lemma contribute_and_edit_keep_item_ids_witness :
  dom (Firestore.wishlistItems
         (fst (handleContribute parseFloatTable
                 (viewing mary "gone" bemaTable "10") 5%Z sampleStore)))
  = dom (Firestore.wishlistItems sampleStore)
  /\ dom (Firestore.wishlistItems
            (fst (handleSubmitItem parseFloatTable
                    (editing "gone" partlyFunded "700") 5%Z "new"
                    sampleStore)))
     = dom (Firestore.wishlistItems sampleStore).
Proof.
  apply (contribute_and_edit_keep_item_ids parseFloatTable
           (viewing mary "gone" bemaTable "10")
           (editing "gone" partlyFunded "700") 5%Z "new" sampleStore).
  reflexivity.
Defined.

Lemma contribute_touches_only_open_item_witness :
  Firestore.wishlistItems
    (fst (handleContribute parseFloatTable
            (viewing mary "bema" bemaTable "551") 5%Z sampleStore)) !! "flag"
  = Firestore.wishlistItems sampleStore !! "flag"
  /\ Firestore.contributionsOf
       (fst (handleContribute parseFloatTable
               (viewing mary "bema" bemaTable "551") 5%Z sampleStore)) "flag"
     = Firestore.contributionsOf sampleStore "flag".
Proof.
  apply (contribute_touches_only_open_item parseFloatTable
           (viewing mary "bema" bemaTable "551") 5%Z sampleStore "bema"
           bemaTable "flag").
  - reflexivity.
  - discriminate.
Defined.

(** ** Deletion, permissions and sign-ups *)

Lemma zero_plus_amount (a : float) :
  amountRefused a = false -> (0 + a)%float = a.
Proof.
  intros Ha. apply FloatAxioms.Prim2SF_inj.
  rewrite FloatAxioms.add_spec.
  revert Ha. unfold amountRefused, JS.isNaN, JS.le, PrimFloat.is_nan.
  rewrite FloatAxioms.eqb_spec, FloatAxioms.leb_spec.
  change (Prim2SF 0) with (S754_zero false).
  unfold SFeqb, SFleb, FloatAxioms.SF64add, SFadd.
  destruct (Prim2SF a) as [s | s | | s m e]; try destruct s; cbn;
    intros Ha; first [reflexivity | discriminate Ha].
Qed.

Section Deletion.

Variable parseFloat : string -> float.

(** X7: an admin's delete removes the document of the item on display and
    nothing else: every other item is as it was, and so is every log, the
    log of the deleted item included: its records stay in the store under
    the id of an item that no longer exists. *)
Theorem delete_removes_item_and_keeps_records ui db id item :
  currentEditingItem ui = Some (id, item) ->
  isAdmin (user ui) = true ->
  snd (handleDeleteItem ui db) = Alert "Item successfully deleted!"
  /\ Firestore.wishlistItems (fst (handleDeleteItem ui db)) !! id = None
  /\ (forall id', id' <> id ->
        Firestore.wishlistItems (fst (handleDeleteItem ui db)) !! id'
        = Firestore.wishlistItems db !! id')
  /\ (forall id',
        Firestore.contributionsOf (fst (handleDeleteItem ui db)) id'
        = Firestore.contributionsOf db id').
Proof.
  intros Hc Ha. unfold handleDeleteItem. rewrite Hc, Ha. cbn.
  split; [reflexivity|]. split; [apply lookup_delete_eq|].
  split; [|reflexivity].
  intros id' Hne. now apply lookup_delete_ne.
Qed.

(** X8: once an item is deleted, a Contribute from a details modal that
    still shows it writes nothing: the sign-up and the cash transaction both
    find no document, the store stays as the deletion left it, and the
    visitor gets neither the thank-you nor the sign-up confirmation. *)
Theorem contribute_on_deleted_item_writes_nothing del ui now db id shown item :
  currentEditingItem del = Some (id, shown) ->
  isAdmin (user del) = true ->
  currentEditingItem ui = Some (id, item) ->
  fst (handleContribute parseFloat ui now (fst (handleDeleteItem del db)))
  = fst (handleDeleteItem del db)
  /\ snd (handleContribute parseFloat ui now (fst (handleDeleteItem del db)))
     <> Alert "Thank you for your contribution!"
  /\ snd (handleContribute parseFloat ui now (fst (handleDeleteItem del db)))
     <> Alert "You have successfully signed up for this item!".
Proof.
  intros Hdel Ha Hc.
  assert (Hgone :
    Firestore.wishlistItems (fst (handleDeleteItem del db)) !! id = None).
  { unfold handleDeleteItem. rewrite Hdel, Ha. cbn. apply lookup_delete_eq. }
  destruct (handleContribute_cases parseFloat ui now
              (fst (handleDeleteItem del db)))
    as [ | | eid eitem u d Hc' _ _ Hd | | | eid eitem u d Hc' _ _ _ _ Hd | | ];
    cbn [fst snd]; try (repeat split; discriminate).
  - rewrite Hc in Hc'. injection Hc' as <- <-. congruence.
  - rewrite Hc in Hc'. injection Hc' as <- <-. congruence.
Qed.

(** X9: without the admin uid nothing can be added, edited or deleted.
    For a visitor who is not the admin (or is not signed in at all),
    [handleSubmitItem] and [handleDeleteItem] leave the store as it was and
    answer with their permission alert, whatever the form holds. *)
Theorem non_admin_cannot_write_items ui now newId db :
  isAdmin (user ui) = false ->
  handleSubmitItem parseFloat ui now newId db
  = (db, Alert "You do not have permission to add or edit an item.")
  /\ handleDeleteItem ui db
     = (db, Alert "You do not have permission to delete this item.").
Proof.
  intros Ha. split.
  - destruct (handleSubmitItem_cases parseFloat ui now newId db);
      first [reflexivity | congruence].
  - unfold handleDeleteItem. rewrite Ha.
    now destruct (currentEditingItem ui) as [[id item]|].
Qed.

(** X10: a successful sign-up changes, in the item, only [status] (to
    'Signed Up'), [contributorId] (to the caller's uid) and
    [contributorName] (to the name used); the eleven other fields, the other
    items and every log are as they were. *)
Theorem sign_up_frame ui now db db' :
  handleContribute parseFloat ui now db
  = (db', Alert "You have successfully signed up for this item!") ->
  exists id item u d d',
    currentEditingItem ui = Some (id, item)
    /\ user ui = Some u
    /\ Firestore.wishlistItems db !! id = Some d
    /\ Firestore.wishlistItems db' !! id = Some d'
    /\ Item.status d' = "Signed Up"
    /\ Item.contributorId d' = Some (User.uid u)
    /\ Item.contributorName d' = Some (nameToUse u ui)
    /\ Item.itemName d' = Item.itemName d
    /\ Item.category d' = Item.category d
    /\ Item.expectedCost d' = Item.expectedCost d
    /\ Item.contributionType d' = Item.contributionType d
    /\ Item.dateNeeded d' = Item.dateNeeded d
    /\ Item.isPartialAllowed d' = Item.isPartialAllowed d
    /\ Item.currentContributions d' = Item.currentContributions d
    /\ Item.createdAt d' = Item.createdAt d
    /\ Item.createdBy d' = Item.createdBy d
    /\ Item.creatorName d' = Item.creatorName d
    /\ Item.updatedAt d' = Item.updatedAt d
    /\ (forall id', id' <> id ->
          Firestore.wishlistItems db' !! id'
          = Firestore.wishlistItems db !! id')
    /\ Firestore.contributions db' = Firestore.contributions db.
Proof.
  intros H.
  pose proof (handleContribute_cases parseFloat ui now db) as Hcase.
  rewrite H in Hcase. inversion Hcase; subst.
  exists id, item, u, d. eexists.
  split; [assumption|]. split; [assumption|]. split; [assumption|].
  split; [apply lookup_insert_eq|].
  repeat (split; [reflexivity|]).
  split; [|reflexivity].
  intros id' Hne. unfold signedUp. cbn. now apply lookup_insert_ne.
Qed.

(** X11: the first contribution to a newly added item.  After the admin
    adds a cash item open to partial contributions under an id that has no
    log, a contribution of a valid amount by a visitor whose modal shows the
    new item leaves the item's total
    at exactly that amount (0 + amount), its log at exactly the one record
    of that amount, and its status at Completed when the amount reaches the
    cost and Signed Up otherwise. *)
Theorem first_contribution_sets_total adm a t1 newId db ui u t2 :
  user adm = Some a ->
  isAdmin (user adm) = true ->
  isEditing adm = false ->
  contributionType adm = "cash" ->
  partialContributionAllowed adm = true ->
  Firestore.contributions db !! newId = None ->
  user ui = Some u ->
  currentEditingItem ui = Some (newId, addedItem parseFloat adm t1 a) ->
  amountRefused (parseFloat (contributionAmount ui)) = false ->
  exists d',
    Firestore.wishlistItems
      (fst (handleContribute parseFloat ui t2
              (fst (handleSubmitItem parseFloat adm t1 newId db)))) !! newId
    = Some d'
    /\ Item.currentContributions d'
       = Some (parseFloat (contributionAmount ui))
    /\ Item.status d'
       = (if JS.ge (parseFloat (contributionAmount ui))
                   (parseFloat (itemCost adm))
          then "Completed" else "Signed Up")
    /\ Firestore.contributionsOf
         (fst (handleContribute parseFloat ui t2
                 (fst (handleSubmitItem parseFloat adm t1 newId db)))) newId
       = [recordOf u ui (parseFloat (contributionAmount ui)) t2].
Proof.
  intros Hua Ha He Hty Hpa Hlog Hu Hc Hamt.
  assert (Ht : Item.contributionType (addedItem parseFloat adm t1 a) = "cash")
    by exact Hty.
  assert (Hp : Item.isPartialAllowed (addedItem parseFloat adm t1 a) = true)
    by (cbn; now rewrite Hty, Hpa).
  destruct (handleSubmitItem_cases parseFloat adm t1 newId db)
    as [Hden | | | a' Hua' _ _]; try congruence.
  rewrite Hua in Hua'. injection Hua' as <-. cbn [fst].
  assert (Hnew :
    Firestore.wishlistItems
      (Firestore.addDoc db newId (addedItem parseFloat adm t1 a)) !! newId
    = Some (addedItem parseFloat adm t1 a))
    by (cbn; apply lookup_insert_eq).
  rewrite (handleContribute_cash _ _ _ _ _ _ _ Hc Hu Ht Hp Hamt), Hnew.
  cbn [fst].
  eexists. split; [apply contributed_item|].
  rewrite contributed_log.
  unfold Firestore.contributionsOf, Firestore.addDoc.
  cbn [Firestore.contributions]. rewrite Hlog.
  cbn [Item.patch fold_left Item.set Item.currentContributions Item.status
       addedItem Item.expectedCost recordOf Contribution.amount].
  change (JS.orZero (Some 0%float)) with 0%float.
  rewrite (zero_plus_amount _ Hamt). now repeat split.
Qed.

End Deletion.

Section RoundTrip.

Variable parseFloat : string -> float.
Variable numberToString : float -> string.

(** X12: opening the edit form on an item and saving it untouched changes
    nothing but [updatedAt].  [handleEditClick] fills the form from the
    item and [handleSubmitItem] writes the form back, so for an admin, an
    item whose cost survives the way through the cost input, and which is
    open to partial contributions only if it is a cash item, the stored
    document after the save is the one before with [updatedAt] set. *)
Theorem edit_untouched_keeps_item ui now newId db id d :
  isAdmin (user ui) = true ->
  Firestore.wishlistItems db !! id = Some d ->
  parseFloat (numberToString (Item.expectedCost d)) = Item.expectedCost d ->
  (Item.isPartialAllowed d = true -> Item.contributionType d = "cash") ->
  handleSubmitItem parseFloat (handleEditClick numberToString (id, d) ui)
    now newId db
  = (Firestore.mkStore
       (<[id := Item.set (Item.UpdatedAt now) d]> (Firestore.wishlistItems db))
       (Firestore.contributions db),
     Alert "Item updated successfully!").
Proof.
  intros Ha Hd Hcost Hpc.
  unfold handleSubmitItem.
  cbn [user handleEditClick isEditing currentEditingItem].
  destruct (user ui) as [u|]; [|discriminate Ha].
  rewrite Ha. cbn [negb].
  rewrite (updateDoc_found _ _ _ _ Hd).
  do 3 f_equal.
  destruct d as [n c e ty dn p st cur ca cb cn ua ci cname].
  cbn in *. rewrite Hcost.
  f_equal. destruct p; [|apply andb_false_r].
  now rewrite (Hpc eq_refl).
Qed.

End RoundTrip.

Lemma delete_removes_item_and_keeps_records_witness :
  snd (handleDeleteItem (viewing admin "bema" bemaTable "")
         (contributed sampleStore "bema" bemaTable
            (Contribution.mk "mary" 551 5%Z "Mary")))
  = Alert "Item successfully deleted!"
  /\ Firestore.wishlistItems
       (fst (handleDeleteItem (viewing admin "bema" bemaTable "")
               (contributed sampleStore "bema" bemaTable
                  (Contribution.mk "mary" 551 5%Z "Mary")))) !! "bema"
     = None
  /\ (forall id', id' <> "bema" ->
        Firestore.wishlistItems
          (fst (handleDeleteItem (viewing admin "bema" bemaTable "")
                  (contributed sampleStore "bema" bemaTable
                     (Contribution.mk "mary" 551 5%Z "Mary")))) !! id'
        = Firestore.wishlistItems
            (contributed sampleStore "bema" bemaTable
               (Contribution.mk "mary" 551 5%Z "Mary")) !! id')
  /\ (forall id',
        Firestore.contributionsOf
          (fst (handleDeleteItem (viewing admin "bema" bemaTable "")
                  (contributed sampleStore "bema" bemaTable
                     (Contribution.mk "mary" 551 5%Z "Mary")))) id'
        = Firestore.contributionsOf
            (contributed sampleStore "bema" bemaTable
               (Contribution.mk "mary" 551 5%Z "Mary")) id').
Proof.
  apply (delete_removes_item_and_keeps_records
           (viewing admin "bema" bemaTable "")
           (contributed sampleStore "bema" bemaTable
              (Contribution.mk "mary" 551 5%Z "Mary"))
           "bema" bemaTable); reflexivity.
Defined.

Lemma contribute_on_deleted_item_writes_nothing_witness :
  fst (handleContribute parseFloatTable (viewing mary "bema" bemaTable "10")
         6%Z
         (fst (handleDeleteItem (viewing admin "bema" bemaTable "")
                 sampleStore)))
  = fst (handleDeleteItem (viewing admin "bema" bemaTable "") sampleStore)
  /\ snd (handleContribute parseFloatTable
            (viewing mary "bema" bemaTable "10") 6%Z
            (fst (handleDeleteItem (viewing admin "bema" bemaTable "")
                    sampleStore)))
     <> Alert "Thank you for your contribution!"
  /\ snd (handleContribute parseFloatTable
            (viewing mary "bema" bemaTable "10") 6%Z
            (fst (handleDeleteItem (viewing admin "bema" bemaTable "")
                    sampleStore)))
     <> Alert "You have successfully signed up for this item!".
Proof.
  apply (contribute_on_deleted_item_writes_nothing parseFloatTable
           (viewing admin "bema" bemaTable "")
           (viewing mary "bema" bemaTable "10") 6%Z sampleStore "bema"
           bemaTable bemaTable); reflexivity.
Defined.

Lemma non_admin_cannot_write_items_witness :
  handleSubmitItem parseFloatTable (viewing mary "bema" bemaTable "") 5%Z
    "new" sampleStore
  = (sampleStore, Alert "You do not have permission to add or edit an item.")
  /\ handleDeleteItem (viewing mary "bema" bemaTable "") sampleStore
     = (sampleStore,
        Alert "You do not have permission to delete this item.").
Proof.
  apply (non_admin_cannot_write_items parseFloatTable
           (viewing mary "bema" bemaTable "") 5%Z "new" sampleStore).
  reflexivity.
Defined.

Lemma sign_up_frame_witness :
  exists id item u d d',
    currentEditingItem (viewing mary "alter" alterTable "") = Some (id, item)
    /\ user (viewing mary "alter" alterTable "") = Some u
    /\ Firestore.wishlistItems sampleStore !! id = Some d
    /\ Firestore.wishlistItems
         (signedUp sampleStore "alter" alterTable mary
            (viewing mary "alter" alterTable "")) !! id = Some d'
    /\ Item.status d' = "Signed Up"
    /\ Item.contributorId d' = Some (User.uid u)
    /\ Item.contributorName d'
       = Some (nameToUse u (viewing mary "alter" alterTable ""))
    /\ Item.itemName d' = Item.itemName d
    /\ Item.category d' = Item.category d
    /\ Item.expectedCost d' = Item.expectedCost d
    /\ Item.contributionType d' = Item.contributionType d
    /\ Item.dateNeeded d' = Item.dateNeeded d
    /\ Item.isPartialAllowed d' = Item.isPartialAllowed d
    /\ Item.currentContributions d' = Item.currentContributions d
    /\ Item.createdAt d' = Item.createdAt d
    /\ Item.createdBy d' = Item.createdBy d
    /\ Item.creatorName d' = Item.creatorName d
    /\ Item.updatedAt d' = Item.updatedAt d
    /\ (forall id', id' <> id ->
          Firestore.wishlistItems
            (signedUp sampleStore "alter" alterTable mary
               (viewing mary "alter" alterTable "")) !! id'
          = Firestore.wishlistItems sampleStore !! id')
    /\ Firestore.contributions
         (signedUp sampleStore "alter" alterTable mary
            (viewing mary "alter" alterTable ""))
       = Firestore.contributions sampleStore.
Proof.
  apply (sign_up_frame parseFloatTable (viewing mary "alter" alterTable "")
           5%Z sampleStore).
  vm_compute. reflexivity.
Defined.

Lemma first_contribution_sets_total_witness :
  exists d',
    Firestore.wishlistItems
      (fst (handleContribute parseFloatTable
              (viewing mary "new"
                 (addedItem parseFloatTable (addingCash "Carpet" "800") 4%Z
                    admin) "550")
              5%Z
              (fst (handleSubmitItem parseFloatTable
                      (addingCash "Carpet" "800") 4%Z "new" sampleStore))))
      !! "new"
    = Some d'
    /\ Item.currentContributions d' = Some (parseFloatTable "550")
    /\ Item.status d'
       = (if JS.ge (parseFloatTable "550") (parseFloatTable "800")
          then "Completed" else "Signed Up")
    /\ Firestore.contributionsOf
         (fst (handleContribute parseFloatTable
                 (viewing mary "new"
                    (addedItem parseFloatTable (addingCash "Carpet" "800")
                       4%Z admin) "550")
                 5%Z
                 (fst (handleSubmitItem parseFloatTable
                         (addingCash "Carpet" "800") 4%Z "new"
                         sampleStore)))) "new"
       = [recordOf mary
            (viewing mary "new"
               (addedItem parseFloatTable (addingCash "Carpet" "800") 4%Z
                  admin) "550")
            (parseFloatTable "550") 5%Z].
Proof.
  apply (first_contribution_sets_total parseFloatTable
           (addingCash "Carpet" "800") admin 4%Z "new" sampleStore
           (viewing mary "new"
              (addedItem parseFloatTable (addingCash "Carpet" "800") 4%Z
                 admin) "550")
           mary 5%Z); reflexivity.
Defined.

Lemma edit_untouched_keeps_item_witness :
  handleSubmitItem parseFloatTable
    (handleEditClick numberToStringTable ("bema", bemaTable)
       (viewing admin "bema" bemaTable ""))
    7%Z "new" sampleStore
  = (Firestore.mkStore
       (<["bema" := Item.set (Item.UpdatedAt 7%Z) bemaTable]>
          (Firestore.wishlistItems sampleStore))
       (Firestore.contributions sampleStore),
     Alert "Item updated successfully!").
Proof.
  apply (edit_untouched_keeps_item parseFloatTable numberToStringTable
           (viewing admin "bema" bemaTable "") 7%Z "new" sampleStore "bema"
           bemaTable); reflexivity.
Defined.

(** ** The order of the displayed list *)

Lemma insertByStatus_past x front rest :
  Forall (fun y => (0 <? sortCompare x y)%float = true) front ->
  insertByStatus x (front ++ rest) = front ++ insertByStatus x rest.
Proof.
  induction 1 as [|y front Hy _ IH]; [reflexivity|].
  cbn [app insertByStatus]. now rewrite Hy, IH.
Qed.

Lemma insertByStatus_stop x rest :
  Forall (fun y => (0 <? sortCompare x y)%float = false) rest ->
  insertByStatus x rest = x :: rest.
Proof.
  destruct 1 as [|y rest Hy _]; [reflexivity|].
  cbn [insertByStatus]. now rewrite Hy.
Qed.

Lemma sortCompare_of_statuses x y sx sy :
  Item.status x.2 = sx -> Item.status y.2 = sy ->
  sortCompare x y
  = match statusOrder sx, statusOrder sy with
    | Some a, Some b =>
        if PrimFloat.is_nan (a - b) then 0%float else (a - b)%float
    | _, _ => 0%float
    end.
Proof.
  intros <- <-. unfold sortCompare, compareByStatus.
  now destruct (statusOrder (Item.status x.2)), (statusOrder (Item.status y.2)).
Qed.

Lemma knownStatus_cases s :
  knownStatus s = true ->
  s = "Pending" \/ s = "Signed Up" \/ s = "Completed".
Proof.
  unfold knownStatus. intros H.
  apply orb_true_iff in H as [H|H]; [apply orb_true_iff in H as [H|H]|];
    apply String.eqb_eq in H; auto.
Qed.

Lemma filter_status_Forall s (l : list (string * Item.t)) :
  Forall (fun p => Item.status p.2 = s)
    (filter (fun p => Item.status p.2 = s) l).
Proof.
  apply Forall_forall. intros p Hp.
  now apply list_elem_of_filter in Hp as [Hs _].
Qed.

(** X14: the displayed list is ordered by status and keeps the order of the
    snapshot within one status.  When every fetched item has one of the
    three statuses, the list given to [setItems] is the Pending items, then
    the Signed Up items, then the Completed items, each group in the order
    the snapshot had them. *)
Theorem sortByStatus_groups fetchedItems :
  Forall (fun p => knownStatus (Item.status p.2) = true) fetchedItems ->
  sortByStatus fetchedItems
  = Some (filter (fun p => Item.status p.2 = "Pending") fetchedItems
          ++ filter (fun p => Item.status p.2 = "Signed Up") fetchedItems
          ++ filter (fun p => Item.status p.2 = "Completed") fetchedItems).
Proof.
  intros Hknown. unfold sortByStatus.
  replace (forallb (fun p => knownStatus (Item.status p.2)) fetchedItems)
    with true
    by (symmetry; apply forallb_forall; intros p Hp;
        apply (proj1 (Forall_forall _ _) Hknown), list_elem_of_In, Hp).
  f_equal.
  induction Hknown as [|x l Hx _ IH]; [reflexivity|].
  cbn [fold_right]. rewrite IH.
  pose proof (filter_status_Forall "Pending" l) as HP.
  pose proof (filter_status_Forall "Signed Up" l) as HS.
  pose proof (filter_status_Forall "Completed" l) as HC.
  destruct (knownStatus_cases _ Hx) as [Hs | [Hs | Hs]].
  - rewrite (filter_cons_True _ x l) by exact Hs.
    rewrite !(filter_cons_False _ x l) by (rewrite Hs; discriminate).
    apply insertByStatus_stop.
    rewrite !Forall_app. repeat split.
    all: eapply Forall_impl; [eassumption|]; intros y Hy; cbn beta in Hy.
    all: now rewrite (sortCompare_of_statuses x y _ _ Hs Hy).
  - rewrite (filter_cons_True (fun p => Item.status p.2 = "Signed Up") x l)
      by exact Hs.
    rewrite !(filter_cons_False _ x l) by (rewrite Hs; discriminate).
    rewrite insertByStatus_past.
    2: { eapply Forall_impl; [exact HP|]. intros y Hy. cbn beta in Hy.
         now rewrite (sortCompare_of_statuses x y _ _ Hs Hy). }
    f_equal. apply insertByStatus_stop.
    rewrite Forall_app. split.
    all: eapply Forall_impl; [eassumption|]; intros y Hy; cbn beta in Hy.
    all: now rewrite (sortCompare_of_statuses x y _ _ Hs Hy).
  - rewrite (filter_cons_True (fun p => Item.status p.2 = "Completed") x l)
      by exact Hs.
    rewrite !(filter_cons_False _ x l) by (rewrite Hs; discriminate).
    rewrite insertByStatus_past.
    2: { eapply Forall_impl; [exact HP|]. intros y Hy. cbn beta in Hy.
         now rewrite (sortCompare_of_statuses x y _ _ Hs Hy). }
    f_equal. rewrite insertByStatus_past.
    2: { eapply Forall_impl; [exact HS|]. intros y Hy. cbn beta in Hy.
         now rewrite (sortCompare_of_statuses x y _ _ Hs Hy). }
    f_equal. apply insertByStatus_stop.
    eapply Forall_impl; [exact HC|]. intros y Hy. cbn beta in Hy.
    now rewrite (sortCompare_of_statuses x y _ _ Hs Hy).
Qed.

Lemma sortByStatus_groups_witness :
  sortByStatus
    [ ("a", partlyFunded); ("b", alterTable);
      ("c", Item.set (Item.Status "Completed") bemaTable);
      ("d", newFlagPole) ]
  = Some
      (filter (fun p => Item.status p.2 = "Pending")
         [ ("a", partlyFunded); ("b", alterTable);
           ("c", Item.set (Item.Status "Completed") bemaTable);
           ("d", newFlagPole) ]
       ++ filter (fun p => Item.status p.2 = "Signed Up")
            [ ("a", partlyFunded); ("b", alterTable);
              ("c", Item.set (Item.Status "Completed") bemaTable);
              ("d", newFlagPole) ]
       ++ filter (fun p => Item.status p.2 = "Completed")
            [ ("a", partlyFunded); ("b", alterTable);
              ("c", Item.set (Item.Status "Completed") bemaTable);
              ("d", newFlagPole) ]).
Proof.
  apply (sortByStatus_groups
           [ ("a", partlyFunded); ("b", alterTable);
             ("c", Item.set (Item.Status "Completed") bemaTable);
             ("d", newFlagPole) ]).
  repeat constructor.
Defined.

(** ** The seeding of the samples *)

Lemma addDocs_non_empty (ps : list (string * Item.t)) (db : Firestore.store) :
  size (Firestore.wishlistItems db) <> 0 \/ ps <> [] ->
  size (Firestore.wishlistItems
          (fold_left (fun acc p => Firestore.addDoc acc p.1 p.2) ps db))
  <> 0.
Proof.
  revert db. induction ps as [|p ps IH]; intros db H.
  - destruct H as [H|H]; [exact H|contradiction].
  - cbn [fold_left]. apply IH. left.
    unfold Firestore.addDoc. cbn [Firestore.wishlistItems].
    apply map_size_non_empty_iff, insert_non_empty.
Qed.

Lemma addDocs_contributions (ps : list (string * Item.t))
    (db : Firestore.store) :
  Firestore.contributions
    (fold_left (fun acc p => Firestore.addDoc acc p.1 p.2) ps db)
  = Firestore.contributions db.
Proof.
  revert db. induction ps as [|p ps IH]; intros db; [reflexivity|].
  cbn [fold_left]. now rewrite IH.
Qed.

(** X15: [checkAndAddSamples] writes the samples only into an empty
    collection.  On a collection that holds an item a run leaves the store
    as it is, whatever its flags and ids.  A run that is ready to load
    (database and authentication ready, data not yet loaded) and has ids for
    its samples leaves a collection that is not empty, also when it found
    it empty; so a run made directly on the store such a run left changes
    nothing.  No run touches a contribution log.  The guard is the empty
    collection alone: nothing here keeps a run from seeding again once
    every item has been deleted. *)
Theorem samples_go_only_into_empty_collection newIds ready auth loaded newIds'
    db :
  newIds <> [] ->
  (size (Firestore.wishlistItems db) <> 0 ->
   fst (checkAndAddSamples ready auth loaded newIds' db) = db)
  /\ size (Firestore.wishlistItems
             (fst (checkAndAddSamples true true false newIds db))) <> 0
  /\ fst (checkAndAddSamples ready auth loaded newIds'
            (fst (checkAndAddSamples true true false newIds db)))
     = fst (checkAndAddSamples true true false newIds db)
  /\ Firestore.contributions
       (fst (checkAndAddSamples ready auth loaded newIds' db))
     = Firestore.contributions db.
Proof.
  intros Hids.
  assert (Hskip : forall db0,
    size (Firestore.wishlistItems db0) <> 0 ->
    fst (checkAndAddSamples ready auth loaded newIds' db0) = db0).
  { intros db0 Hsize. unfold checkAndAddSamples.
    destruct (ready && auth && negb loaded); [|reflexivity]. cbn [fst].
    apply Nat.eqb_neq in Hsize. now rewrite Hsize. }
  assert (Hfull :
    size (Firestore.wishlistItems
            (fst (checkAndAddSamples true true false newIds db))) <> 0).
  { unfold checkAndAddSamples. cbn [andb negb fst].
    destruct (Nat.eqb (size (Firestore.wishlistItems db)) 0) eqn:E.
    - apply addDocs_non_empty. right.
      destruct newIds as [|i ids]; [contradiction|]. discriminate.
    - now apply Nat.eqb_neq in E. }
  split; [apply Hskip|]. split; [exact Hfull|].
  split; [now apply Hskip|].
  unfold checkAndAddSamples.
  destruct (ready && auth && negb loaded); [|reflexivity]. cbn [fst].
  destruct (Nat.eqb (size (Firestore.wishlistItems db)) 0); [|reflexivity].
  apply addDocs_contributions.
Qed.

Lemma samples_go_only_into_empty_collection_witness :
  (size (Firestore.wishlistItems (Firestore.mkStore ∅ ∅)) <> 0 ->
   fst (checkAndAddSamples true true false ["x"; "y"; "z"]
          (Firestore.mkStore ∅ ∅))
   = Firestore.mkStore ∅ ∅)
  /\ size (Firestore.wishlistItems
             (fst (checkAndAddSamples true true false
                     ["alter"; "bema"; "flag"] (Firestore.mkStore ∅ ∅))))
     <> 0
  /\ fst (checkAndAddSamples true true false ["x"; "y"; "z"]
            (fst (checkAndAddSamples true true false
                    ["alter"; "bema"; "flag"] (Firestore.mkStore ∅ ∅))))
     = fst (checkAndAddSamples true true false ["alter"; "bema"; "flag"]
              (Firestore.mkStore ∅ ∅))
  /\ Firestore.contributions
       (fst (checkAndAddSamples true true false ["x"; "y"; "z"]
               (Firestore.mkStore ∅ ∅)))
     = Firestore.contributions (Firestore.mkStore ∅ ∅).
Proof.
  apply (samples_go_only_into_empty_collection ["alter"; "bema"; "flag"]
           true true false ["x"; "y"; "z"] (Firestore.mkStore ∅ ∅)).
  discriminate.
Defined.

Lemma seeded_store_is_sampleStore :
  fst (checkAndAddSamples true true false ["alter"; "bema"; "flag"]
         (Firestore.mkStore ∅ ∅))
  = sampleStore.
Proof. vm_compute. reflexivity. Qed.

(** ** Edge cases of a contribution *)

Lemma nan_leb_false (e x : float) :
  PrimFloat.is_nan e = true -> (e <=? x)%float = false.
Proof.
  unfold PrimFloat.is_nan.
  rewrite FloatAxioms.eqb_spec, FloatAxioms.leb_spec.
  unfold SFeqb, SFleb.
  destruct (Prim2SF e) as [s | s | | s m e']; try destruct s; cbn;
    rewrite ?Z.compare_refl, ?Pos.compare_cont_refl; cbn;
    intros H; first [reflexivity | discriminate H].
Qed.

Lemma patch_sign_up_twice u ui d :
  Item.patch
    [ Item.Status "Signed Up"; Item.ContributorId (User.uid u);
      Item.ContributorName (nameToUse u ui) ]
    (Item.patch
       [ Item.Status "Signed Up"; Item.ContributorId (User.uid u);
         Item.ContributorName (nameToUse u ui) ] d)
  = Item.patch
      [ Item.Status "Signed Up"; Item.ContributorId (User.uid u);
        Item.ContributorName (nameToUse u ui) ] d.
Proof. now destruct d. Qed.

Section Edges.

Variable parseFloat : string -> float.

(** X20: a cash item just opened takes no contribution until an amount is
    typed.  The click on a card empties the amount field, so when the empty
    text parses to NaN, a Contribute issued right after opening a cash item
    open to partial contributions is answered with 'Please enter a valid
    contribution amount.' and writes nothing, whatever amount was typed for
    the item shown before. *)
Theorem freshly_opened_item_takes_no_amount ui u id item now db :
  JS.isNaN (parseFloat "") = true ->
  user ui = Some u ->
  Item.contributionType item = "cash" ->
  Item.isPartialAllowed item = true ->
  handleContribute parseFloat (openDetails (id, item) ui) now db
  = (db, Alert "Please enter a valid contribution amount.").
Proof.
  intros Hnan Hu Ht Hp.
  apply (handleContribute_refused parseFloat _ now db id item u);
    try assumption; try reflexivity.
  unfold amountRefused. cbn [openDetails contributionAmount].
  now rewrite Hnan.
Qed.

(** X21: an item whose cost is not a number can never be completed.
    [handleSubmitItem] stores [parseFloat(itemCost)] unchecked; when the
    stored [expectedCost] is NaN, every committed cash contribution leaves
    the status at 'Signed Up', however large the total. *)
Theorem nan_cost_never_completes ui now db id item u d :
  currentEditingItem ui = Some (id, item) ->
  user ui = Some u ->
  Item.contributionType item = "cash" ->
  Item.isPartialAllowed item = true ->
  amountRefused (parseFloat (contributionAmount ui)) = false ->
  Firestore.wishlistItems db !! id = Some d ->
  JS.isNaN (Item.expectedCost d) = true ->
  snd (handleContribute parseFloat ui now db)
  = Alert "Thank you for your contribution!"
  /\ Item.status
       <$> Firestore.wishlistItems (fst (handleContribute parseFloat ui now db))
             !! id
     = Some "Signed Up".
Proof.
  intros Hc Hu Ht Hp Ha Hd Hnan.
  rewrite (handleContribute_cash _ _ _ _ _ _ _ Hc Hu Ht Hp Ha), Hd.
  split; [reflexivity|]. cbn [fst]. rewrite contributed_item.
  cbn [fmap option_fmap option_map Item.patch fold_left Item.set Item.status].
  unfold JS.ge. now rewrite (nan_leb_false _ _ Hnan).
Qed.

(** X22: signing up twice is signing up once.  When the same visitor
    under the same name submits the sign-up for the same Exclusive item
    again, the second call gives the store and the alert of the first. *)
Theorem sign_up_twice_is_once ui now now' db id item :
  currentEditingItem ui = Some (id, item) ->
  Item.contributionType item = "item" ->
  handleContribute parseFloat ui now'
    (fst (handleContribute parseFloat ui now db))
  = handleContribute parseFloat ui now db.
Proof.
  intros Hc Ht.
  destruct (user ui) as [u|] eqn:Hu.
  2: { unfold handleContribute. now rewrite Hc, Hu. }
  rewrite !(handleContribute_item parseFloat ui _ _ id item u Hc Hu Ht).
  destruct (Firestore.wishlistItems db !! id) as [d|] eqn:Hd.
  - cbn [fst].
    assert (Hnew :
      Firestore.wishlistItems (signedUp db id d u ui) !! id
      = Some (Item.patch
                [ Item.Status "Signed Up"; Item.ContributorId (User.uid u);
                  Item.ContributorName (nameToUse u ui) ] d))
      by (unfold signedUp; cbn; apply lookup_insert_eq).
    rewrite Hnew. unfold signedUp.
    cbn [Firestore.wishlistItems Firestore.contributions].
    now rewrite insert_insert_eq, patch_sign_up_twice.
  - cbn [fst]. now rewrite Hd.
Qed.

End Edges.

Lemma freshly_opened_item_takes_no_amount_witness :
  handleContribute parseFloatTable
    (openDetails ("bema", bemaTable) (viewing mary "flag" newFlagPole "551"))
    5%Z sampleStore
  = (sampleStore, Alert "Please enter a valid contribution amount.").
Proof.
  apply (freshly_opened_item_takes_no_amount parseFloatTable
           (viewing mary "flag" newFlagPole "551") mary "bema" bemaTable 5%Z
           sampleStore); reflexivity.
Defined.

Lemma nan_cost_never_completes_witness :
  snd (handleContribute parseFloatTable
         (viewing mary "it" (Item.set (Item.ExpectedCost nan) bemaTable)
            "1000")
         5%Z (storeOf (Item.set (Item.ExpectedCost nan) bemaTable)))
  = Alert "Thank you for your contribution!"
  /\ Item.status
       <$> Firestore.wishlistItems
             (fst (handleContribute parseFloatTable
                     (viewing mary "it"
                        (Item.set (Item.ExpectedCost nan) bemaTable) "1000")
                     5%Z
                     (storeOf (Item.set (Item.ExpectedCost nan) bemaTable))))
             !! "it"
     = Some "Signed Up".
Proof.
  apply (nan_cost_never_completes parseFloatTable
           (viewing mary "it" (Item.set (Item.ExpectedCost nan) bemaTable)
              "1000")
           5%Z (storeOf (Item.set (Item.ExpectedCost nan) bemaTable)) "it"
           (Item.set (Item.ExpectedCost nan) bemaTable) mary
           (Item.set (Item.ExpectedCost nan) bemaTable)); reflexivity.
Defined.

Lemma sign_up_twice_is_once_witness :
  handleContribute parseFloatTable (viewing mary "alter" alterTable "") 6%Z
    (fst (handleContribute parseFloatTable
            (viewing mary "alter" alterTable "") 5%Z sampleStore))
  = handleContribute parseFloatTable (viewing mary "alter" alterTable "") 5%Z
      sampleStore.
Proof.
  apply (sign_up_twice_is_once parseFloatTable
           (viewing mary "alter" alterTable "") 5%Z 6%Z sampleStore "alter"
           alterTable); reflexivity.
Defined.

Lemma failed_contribute_writes_nothing_witness :
  fst (handleContribute parseFloatTable (viewing mary "gone" bemaTable "10")
         5%Z sampleStore)
  = sampleStore.
Proof.
  apply (failed_contribute_writes_nothing parseFloatTable
           (viewing mary "gone" bemaTable "10") 5%Z sampleStore _
           (Alert "An error occurred during your contribution. Please try again."));
    [vm_compute; reflexivity | discriminate | discriminate].
Defined.

Lemma invalid_amount_writes_nothing_witness :
  handleContribute parseFloatTable (viewing mary "bema" bemaTable "") 5%Z
    sampleStore
  = (sampleStore, Alert "Please enter a valid contribution amount.").
Proof.
  apply (invalid_amount_writes_nothing parseFloatTable
           (viewing mary "bema" bemaTable "") 5%Z sampleStore "bema"
           bemaTable mary); try reflexivity.
  left. reflexivity.
Defined.

Lemma cash_contribution_is_atomic_witness :
  fst (handleContribute parseFloatTable (viewing mary "bema" bemaTable "551")
         5%Z sampleStore)
  = sampleStore
  \/ exists d,
       Firestore.wishlistItems sampleStore !! "bema" = Some d
       /\ Item.currentContributions
            <$> Firestore.wishlistItems
                  (fst (handleContribute parseFloatTable
                          (viewing mary "bema" bemaTable "551") 5%Z
                          sampleStore)) !! "bema"
          = Some (Some (JS.orZero (Item.currentContributions d)
                        + parseFloatTable "551")%float)
       /\ Firestore.contributionsOf
            (fst (handleContribute parseFloatTable
                    (viewing mary "bema" bemaTable "551") 5%Z sampleStore))
            "bema"
          = Firestore.contributionsOf sampleStore "bema"
            ++ [recordOf mary (viewing mary "bema" bemaTable "551")
                  (parseFloatTable "551") 5%Z].
Proof.
  apply (cash_contribution_is_atomic parseFloatTable
           (viewing mary "bema" bemaTable "551") 5%Z sampleStore "bema"
           bemaTable mary); reflexivity.
Defined.
